(** * Philips air purifier sensors: a shallow embedding of [sensor.py]

    The development follows
    [custom_components/philips_airpurifier_coap/sensor.py]:

    - Python scalars, exceptions and the few builtins the module calls
      ([str], [str.lower], [str.title], float arithmetic, [round],
      [datetime.timedelta]);
    - the imported tables and constants of [const.py] as a type class;
    - [PhilipsSensor], [PhilipsFilterSensor] and [async_setup_platform];
    - the properties of the specification, stated over these definitions.

    Conventions.  A device status snapshot is a [gmap string value]; the
    entities keep a reference to the coordinator only, so every property
    takes the coordinator's current state as an argument.  Code that may
    raise returns a [res]; code that also logs returns a [Logged]. *)

From Stdlib Require Import ZArith String Ascii List Bool Lia.
From Stdlib Require Import Floats.SpecFloat.
From stdpp Require Import base option list gmap strings pretty.

Local Open Scope Z_scope.

(** ** Python values *)

(** The scalars a status snapshot holds: JSON [null], booleans, integers
    and strings.  ([_value] and [_total] are annotated [int] in the source;
    floating-point entries of a snapshot are outside the model.) *)
Inductive value : Type :=
  | VNone
  | VBool (b : bool)
  | VInt (n : Z)
  | VStr (s : string).

#[global] Instance value_eq_dec : EqDecision value.
Proof. solve_decision. Defined.

(** [StateType]: what a [state] property hands to the host, a scalar or a
    float (IEEE-754 binary64, as CPython's [float]). *)
Inductive StateType : Type :=
  | SValue (v : value)
  | SFloat (f : spec_float).

(** The exceptions that the modelled code can raise. *)
Inductive exn : Type :=
  | KeyError (key : string)
  | TypeError
  | ZeroDivisionError
  | OverflowError
  | PlatformNotReady.

#[global] Instance exn_eq_dec : EqDecision exn.
Proof. solve_decision. Defined.

Inductive res (A : Type) : Type :=
  | Ok (a : A)
  | Raise (e : exn).
Arguments Ok {A} a.
Arguments Raise {A} e.

#[global] Instance res_ret : MRet res := @Ok.
#[global] Instance res_bind : MBind res := λ A B f m,
  match m with
  | Ok a => f a
  | Raise e => Raise e
  end.

(** A record handed to [_LOGGER.error(msg, arg)]. *)
Inductive LogRecord : Type :=
  | LogError (msg : string) (arg : exn).

(** Computations that log and may raise: the records logged so far and the
    outcome. *)
Definition Logged (A : Type) : Type := list LogRecord * res A.

#[global] Instance Logged_ret : MRet Logged := λ A a, ([], Ok a).
#[global] Instance Logged_bind : MBind Logged := λ A B f m,
  match m with
  | (l, Ok a) => let '(l', r) := f a in (l ++ l', r)
  | (l, Raise e) => (l, Raise e)
  end.

Definition lift {A} (r : res A) : Logged A := ([], r).
Definition raise {A} (e : exn) : Logged A := ([], Raise e).
Definition log_error (msg : string) (arg : exn) : Logged unit :=
  ([LogError msg arg], Ok tt).

(** [try: body  except Exception as e: handler e]. *)
Definition try_except {A} (body : Logged A) (handler : exn → Logged A) : Logged A :=
  match body with
  | (l, Raise e) => let '(l', r) := handler e in (l ++ l', r)
  | (l, Ok a) => (l, Ok a)
  end.

(** [for x in xs: acc = body acc x], stopping at the first exception. *)
Fixpoint for_each {A S} (xs : list A) (body : S → A → Logged S) (acc : S) : Logged S :=
  match xs with
  | [] => mret acc
  | x :: xs' => acc' ← body acc x; for_each xs' body acc'
  end.

(** ** Dictionaries *)

(** [d[k]] on a snapshot. *)
Definition getitem {V} (d : gmap string V) (k : string) : res V :=
  match d !! k with
  | Some v => Ok v
  | None => Raise (KeyError k)
  end.

(** [d.get(k)] on a snapshot: [None] when the key is missing. *)
Definition dict_get (d : gmap string value) (k : string) : value :=
  default VNone (d !! k).

(** [k in d]. *)
Definition contains {V} (d : gmap string V) (k : string) : bool :=
  bool_decide (is_Some (d !! k)).

(** The imported tables are dict literals: an association list in
    insertion order, read with the first binding of a key. *)
Fixpoint table_get {V} (t : list (string * V)) (k : string) : res V :=
  match t with
  | [] => Raise (KeyError k)
  | (k', v) :: t' => if decide (k' = k) then Ok v else table_get t' k
  end.

Definition table_keys {V} (t : list (string * V)) : list string := t.*1.

(** ** Builtins *)

(** Truth value of a scalar, as tested by [if x:]. *)
Definition truthy (v : value) : bool :=
  match v with
  | VNone => false
  | VBool b => b
  | VInt n => negb (n =? 0)
  | VStr s => negb (bool_decide (s = ""))
  end.

(** [str(v)], which is what an f-string field without a format spec
    inserts. *)
Definition py_str (v : value) : string :=
  match v with
  | VNone => "None"
  | VBool true => "True"
  | VBool false => "False"
  | VInt n => pretty n
  | VStr s => s
  end.

(** Character classes and case mappings of the ASCII letters.  A string
    is a sequence of bytes here; [lower] and [title] below are
    [str.lower] and [str.title] on strings of ASCII characters only
    ([ascii_only]), which is what the properties that speak of them
    assume: bytes above 127 are left alone. *)
Definition is_upper (c : ascii) : bool :=
  let n := N_of_ascii c in ((65 <=? n) && (n <=? 90))%N.
Definition is_lower (c : ascii) : bool :=
  let n := N_of_ascii c in ((97 <=? n) && (n <=? 122))%N.
Definition to_lower (c : ascii) : ascii :=
  if is_upper c then ascii_of_N (N_of_ascii c + 32) else c.
Definition to_upper (c : ascii) : ascii :=
  if is_lower c then ascii_of_N (N_of_ascii c - 32) else c.

Fixpoint string_map (f : ascii → ascii) (s : string) : string :=
  match s with
  | EmptyString => EmptyString
  | String c s' => String (f c) (string_map f s')
  end.

(** [s.lower()]. *)
Definition lower (s : string) : string := string_map to_lower s.

(** [s.replace('_', ' ')]. *)
Definition replace_underscores (s : string) : string :=
  string_map (λ c, if Ascii.eqb c "_" then " "%char else c) s.

(** [s.title()]: the first cased character of every run of cased
    characters in upper case, the others in lower case. *)
Fixpoint title_from (previous_is_cased : bool) (s : string) : string :=
  match s with
  | EmptyString => EmptyString
  | String c s' =>
      if is_lower c then
        String (if previous_is_cased then c else to_upper c) (title_from true s')
      else if is_upper c then
        String (if previous_is_cased then to_lower c else c) (title_from true s')
      else String c (title_from false s')
  end.
Definition title (s : string) : string := title_from false s.

(** [''.join(parts)]. *)
Definition str_join (parts : list string) : string := foldr String.append "" parts.

(** ** Floats

    CPython's [float] is IEEE-754 binary64 with round-to-nearest-even;
    [SpecFloat] gives its operations on mantissa and exponent. *)
Module PyFloat.

Definition prec : Z := 53.
Definition emax : Z := 1024.

Definition mul : spec_float → spec_float → spec_float := SFmul prec emax.
Definition div : spec_float → spec_float → spec_float := SFdiv prec emax.

(** [float(n)] for an [int]: the nearest float, [OverflowError] when
    there is none. *)
Definition of_int (n : Z) : res spec_float :=
  match binary_normalize prec emax n 0 false with
  | S754_infinity _ => Raise OverflowError
  | f => Ok f
  end.

(** The literal [100.0]. *)
Definition hundred : spec_float := S754_finite false 7036874417766400 (-46).

Definition is_zero (f : spec_float) : bool :=
  match f with
  | S754_zero _ => true
  | _ => false
  end.

(** The operand of a float operation: an [int] (or [bool]) is converted,
    anything else is a [TypeError]. *)
Definition operand (v : value) : res spec_float :=
  match v with
  | VInt n => of_int n
  | VBool b => of_int (if b then 1 else 0)
  | VNone | VStr _ => Raise TypeError
  end.

(** [x * v] for a float [x]. *)
Definition mul_value (x : spec_float) (v : value) : res spec_float :=
  y ← operand v; Ok (mul x y).

(** [x / v] for a float [x]: a zero divisor is a [ZeroDivisionError]. *)
Definition truediv_value (x : spec_float) (v : value) : res spec_float :=
  y ← operand v;
  if is_zero y then Raise ZeroDivisionError else Ok (div x y).

(** [a / b] rounded to the nearest integer, ties to even ([0 < b]). *)
Definition round_half_even (a b : Z) : Z :=
  let q := a / b in
  match 2 * (a mod b) ?= b with
  | Lt => q
  | Gt => q + 1
  | Eq => if Z.even q then q else q + 1
  end.

(** [round(x, 2)]: the decimal with two fractional digits nearest to the
    exact value of [x] (ties to even), converted back to the nearest
    float; infinities and NaN round to themselves. *)
Definition round2 (x : spec_float) : spec_float :=
  match x with
  | S754_finite s m e =>
      let hundredths :=
        match e with
        | Zneg p => round_half_even (Zpos m * 100) (Z.pow_pos 2 p)
        | _ => Zpos m * 100 * 2 ^ e
        end in
      match hundredths with
      | Zpos h => div (S754_finite s h 0) (S754_finite false 100 0)
      | _ => S754_zero s
      end
  | _ => x
  end.

End PyFloat.

(** ** [datetime.timedelta] *)
Module timedelta.

Record t : Type := { days : Z; seconds : Z; microseconds : Z }.

Definition us_per_hour : Z := 3600000000.

(** Normalisation of a count of microseconds; the day count is limited
    to nine digits. *)
Definition of_microseconds (us : Z) : res t :=
  let s := us / 1000000 in
  let d := s / 86400 in
  if (-999999999 <=? d) && (d <=? 999999999)
  then Ok {| days := d; seconds := s mod 86400; microseconds := us mod 1000000 |}
  else Raise OverflowError.

(** [timedelta(hours=v)]. *)
Definition of_hours (v : value) : res t :=
  match v with
  | VInt n => of_microseconds (n * us_per_hour)
  | VBool b => of_microseconds ((if b then 1 else 0) * us_per_hour)
  | VNone | VStr _ => Raise TypeError
  end.

(** ["%0<width>d" % n] for [0 <= n]. *)
Definition zero_padded (width : nat) (n : Z) : string :=
  let digits := pretty n in
  String.concat "" (replicate (width - String.length digits)%nat "0") +:+ digits.

(** [str(td)]. *)
Definition str (td : t) : string :=
  let minutes := seconds td / 60 in
  let hours := minutes / 60 in
  let clock :=
    pretty hours +:+ ":" +:+ zero_padded 2 (minutes mod 60)
      +:+ ":" +:+ zero_padded 2 (seconds td mod 60) in
  let day_part :=
    if days td =? 0 then ""
    else pretty (days td) +:+ " day"
           +:+ (if Z.abs (days td) =? 1 then "" else "s") +:+ ", " in
  let us_part :=
    if microseconds td =? 0 then ""
    else "." +:+ zero_padded 6 (microseconds td) in
  day_part +:+ clock +:+ us_part.

End timedelta.

(** [homeassistant.const.PERCENTAGE]. *)
Definition PERCENTAGE : string := "%".

(** ** The collaborators of the module *)

(** The polling coordinator, of which the module reads [status] only. *)
Record Coordinator : Type := { status : gmap string value }.

(** Modelled from the spec: [PhilipsEntity] (in the package's [__init__],
    not part of the sources) keeps a reference to the coordinator, and its
    [_device_status] is the coordinator's current snapshot, re-read on
    every access.  The reference is rendered by passing the coordinator's
    state at the time of the access. *)
Definition _device_status (coordinator : Coordinator) : gmap string value :=
  status coordinator.

(** An entry of [SENSOR_TYPES]; the projections are named after the keys
    of the dict.  [ATTR_LABEL] is read with [description[...]], the others
    with [description.get(...)]. *)
Record SensorDescription : Type := {
  ATTR_LABEL : string;
  ATTR_DEVICE_CLASS : option string;
  ATTR_ICON : option string;
  ATTR_STATE_CLASS : option string;
  ATTR_UNIT : option string;
  ATTR_VALUE : option (value → gmap string value → res StateType)
}.

(** An entry of [FILTER_TYPES]. *)
Record FilterDescription : Type := {
  ATTR_PREFIX : string;
  ATTR_POSTFIX : string
}.

(** The names imported from [const.py], which is not part of the sources:
    they are parameters of the development. *)
Class Const : Type := {
  PHILIPS_DEVICE_ID : string;
  PHILIPS_FILTER_STATUS : string;
  PHILIPS_FILTER_TOTAL : string;
  PHILIPS_FILTER_TYPE : string;
  ATTR_TYPE : string;
  ATTR_RAW : string;
  ATTR_TOTAL : string;
  ATTR_TIME_REMAINING : string;
  SENSOR_TYPES : list (string * SensorDescription);
  FILTER_TYPES : list (string * FilterDescription)
}.

(** ** [class PhilipsSensor] *)
Module PhilipsSensor.
Section PhilipsSensor.
Context `{Const}.

Record t : Type := {
  _model : string;
  _description : SensorDescription;
  _attr_device_class : option string;
  _attr_icon : option string;
  _attr_name : string;
  _attr_state_class : option string;
  _attr_unit_of_measurement : option string;
  _attr_unique_id : string;
  _attrs : gmap string value;
  kind : string
}.

Definition __init__ (coordinator : Coordinator) (name model kind : string) : Logged t :=
  description ← lift (table_get SENSOR_TYPES kind);
  let attr_name := name +:+ " " +:+ title (replace_underscores (ATTR_LABEL description)) in
  unique_id ←
    try_except
      (device_id ← lift (getitem (_device_status coordinator) PHILIPS_DEVICE_ID);
       mret (model +:+ "-" +:+ py_str device_id +:+ "-" +:+ lower kind))
      (λ e, _ ← log_error "Failed retrieving unique_id: %s" e;
            raise PlatformNotReady);
  mret {| _model := model;
          _description := description;
          _attr_device_class := ATTR_DEVICE_CLASS description;
          _attr_icon := ATTR_ICON description;
          _attr_name := attr_name;
          _attr_state_class := ATTR_STATE_CLASS description;
          _attr_unit_of_measurement := ATTR_UNIT description;
          _attr_unique_id := unique_id;
          _attrs := ∅;
          kind := kind |}.

Definition state (self : t) (coordinator : Coordinator) : res StateType :=
  value ← getitem (_device_status coordinator) (kind self);
  match ATTR_VALUE (_description self) with
  | Some convert => convert value (_device_status coordinator)
  | None => Ok (SValue value)
  end.

End PhilipsSensor.
End PhilipsSensor.

(** ** [class PhilipsFilterSensor] *)
Module PhilipsFilterSensor.
Section PhilipsFilterSensor.
Context `{Const}.

Record t : Type := {
  _model : string;
  _value_key : string;
  _total_key : string;
  _type_key : string;
  _attr_unit_of_measurement : option string;
  _attr_name : string;
  _attr_unique_id : string;
  _attrs : gmap string value
}.

Definition is_supported (device_status : gmap string value) (kind : string) : res bool :=
  description ← table_get FILTER_TYPES kind;
  let prefix := ATTR_PREFIX description in
  let postfix := ATTR_POSTFIX description in
  Ok (contains device_status (str_join [prefix; PHILIPS_FILTER_STATUS; postfix])).

Definition __init__ (coordinator : Coordinator) (name model kind : string) : Logged t :=
  description ← lift (table_get FILTER_TYPES kind);
  let prefix := ATTR_PREFIX description in
  let postfix := ATTR_POSTFIX description in
  let value_key := str_join [prefix; PHILIPS_FILTER_STATUS; postfix] in
  let total_key := str_join [prefix; PHILIPS_FILTER_TOTAL; postfix] in
  let type_key := str_join [prefix; PHILIPS_FILTER_TYPE; postfix] in
  let unit_of_measurement :=
    if contains (_device_status coordinator) total_key then Some PERCENTAGE else None in
  let attr_name := name +:+ " " +:+ title (replace_underscores kind) in
  unique_id ←
    try_except
      (device_id ← lift (getitem (_device_status coordinator) PHILIPS_DEVICE_ID);
       mret (model +:+ "-" +:+ py_str device_id +:+ "-" +:+ kind))
      (λ e, _ ← log_error "Failed retrieving unique_id: %s" e;
            raise PlatformNotReady);
  mret {| _model := model;
          _value_key := value_key;
          _total_key := total_key;
          _type_key := type_key;
          _attr_unit_of_measurement := unit_of_measurement;
          _attr_name := attr_name;
          _attr_unique_id := unique_id;
          _attrs := ∅ |}.

Definition _has_total (self : t) (coordinator : Coordinator) : bool :=
  contains (_device_status coordinator) (_total_key self).

Definition _value (self : t) (coordinator : Coordinator) : res value :=
  getitem (_device_status coordinator) (_value_key self).

Definition _total (self : t) (coordinator : Coordinator) : res value :=
  getitem (_device_status coordinator) (_total_key self).

Definition _percentage (self : t) (coordinator : Coordinator) : res spec_float :=
  value ← _value self coordinator;
  scaled ← PyFloat.mul_value PyFloat.hundred value;
  total ← _total self coordinator;
  ratio ← PyFloat.truediv_value scaled total;
  Ok (PyFloat.round2 ratio).

Definition _time_remaining (self : t) (coordinator : Coordinator) : res string :=
  value ← _value self coordinator;
  td ← timedelta.of_hours value;
  Ok (timedelta.str td).

Definition state (self : t) (coordinator : Coordinator) : res StateType :=
  if _has_total self coordinator
  then p ← _percentage self coordinator; Ok (SFloat p)
  else s ← _time_remaining self coordinator; Ok (SValue (VStr s)).

Definition set_attrs (self : t) (attrs : gmap string value) : t :=
  {| _model := _model self;
     _value_key := _value_key self;
     _total_key := _total_key self;
     _type_key := _type_key self;
     _attr_unit_of_measurement := _attr_unit_of_measurement self;
     _attr_name := _attr_name self;
     _attr_unique_id := _attr_unique_id self;
     _attrs := attrs |}.

(** [self._attrs] is a dict of the entity, updated in place and handed
    out: the property returns the entity after the read (also when the
    read raises half-way) and the outcome, which on success is that
    same dict. *)
Definition extra_state_attributes (self : t) (coordinator : Coordinator)
  : t * res (gmap string value) :=
  let device_status := _device_status coordinator in
  let attrs1 :=
    match device_status !! _type_key self with
    | Some type => <[ATTR_TYPE := type]> (_attrs self)
    | None => _attrs self
    end in
  match _value self coordinator with
  | Raise e => (set_attrs self attrs1, Raise e)
  | Ok value =>
      let attrs2 := <[ATTR_RAW := value]> attrs1 in
      if _has_total self coordinator then
        match _total self coordinator with
        | Raise e => (set_attrs self attrs2, Raise e)
        | Ok total =>
            let attrs3 := <[ATTR_TOTAL := total]> attrs2 in
            match _time_remaining self coordinator with
            | Raise e => (set_attrs self attrs3, Raise e)
            | Ok remaining =>
                let attrs4 := <[ATTR_TIME_REMAINING := VStr remaining]> attrs3 in
                (set_attrs self attrs4, Ok attrs4)
            end
        end
      else (set_attrs self attrs2, Ok attrs2)
  end.

End PhilipsFilterSensor.
End PhilipsFilterSensor.

(** ** [async_setup_platform] *)

(** What the list handed to [async_add_entities] holds. *)
Inductive Entity : Type :=
  | Sensor (e : PhilipsSensor.t)
  | FilterSensor (e : PhilipsFilterSensor.t).

(** The three entries read from [discovery_info]. *)
Record DiscoveryInfo : Type := {
  CONF_HOST : string;
  CONF_MODEL : string;
  CONF_NAME : string
}.

Section Setup.
Context `{Const}.

(** [hass] stands for [hass.data[DOMAIN]], from the host to its
    coordinator.  The outcome is the call made to [async_add_entities]
    (the entities and [update_before_add]), if any.  The inputs are taken
    well formed: [discovery_info] holds its three entries, [hass.data]
    holds [DOMAIN], and the entry of a host holds its coordinator; of the
    subscripts of the first lines only [hass.data[DOMAIN][host]] can
    fail here. *)
Definition async_setup_platform
    (hass : gmap string Coordinator) (discovery_info : option DiscoveryInfo)
  : Logged (option (list Entity * bool)) :=
  match discovery_info with
  | None => mret None
  | Some discovery_info =>
      let host := CONF_HOST discovery_info in
      let model := CONF_MODEL discovery_info in
      let name := CONF_NAME discovery_info in
      coordinator ← lift (getitem hass host);
      sensors ←
        for_each (table_keys SENSOR_TYPES)
          (λ sensors sensor,
             if truthy (dict_get (status coordinator) sensor)
             then e ← PhilipsSensor.__init__ coordinator name model sensor;
                  mret (sensors ++ [Sensor e])
             else mret sensors)
          [];
      sensors ←
        for_each (table_keys FILTER_TYPES)
          (λ sensors filter,
             supported ← lift (PhilipsFilterSensor.is_supported (status coordinator) filter);
             if supported : bool
             then e ← PhilipsFilterSensor.__init__ coordinator name model filter;
                  mret (sensors ++ [FilterSensor e])
             else mret sensors)
          sensors;
      mret (Some (sensors, false))
  end.

End Setup.

(** ** A sample configuration *)

(** Modelled from the spec: a sample of [const.py] (which is not part of
    the sources) with the literals the specification names, the middle
    tokens ["FilterStatus"], ["FilterTotal"], ["FilterType"], the
    attribute keys ["raw"] and ["type"], the sensor ["pm25"] and the
    filter ["pre_filter"].  It serves the worked examples only; the
    properties are stated for every [Const]. *)
Module Sample.

(** A conversion function in the style of the table's: tenths of a degree
    to whole degrees. *)
Definition tenths (v : value) (_ : gmap string value) : res StateType :=
  match v with
  | VInt n => Ok (SValue (VInt (n / 10)))
  | _ => Raise TypeError
  end.

Definition pm25 : SensorDescription :=
  {| ATTR_LABEL := "pm25";
     ATTR_DEVICE_CLASS := None;
     ATTR_ICON := Some "mdi:blur";
     ATTR_STATE_CLASS := Some "measurement";
     ATTR_UNIT := Some "ug/m3";
     ATTR_VALUE := None |}.

Definition temp : SensorDescription :=
  {| ATTR_LABEL := "temperature";
     ATTR_DEVICE_CLASS := Some "temperature";
     ATTR_ICON := None;
     ATTR_STATE_CLASS := Some "measurement";
     ATTR_UNIT := Some "C";
     ATTR_VALUE := Some tenths |}.

Definition pre_filter_description : FilterDescription :=
  {| ATTR_PREFIX := "Pre"; ATTR_POSTFIX := "" |}.

#[local] Instance const : Const :=
  {| PHILIPS_DEVICE_ID := "DeviceId";
     PHILIPS_FILTER_STATUS := "FilterStatus";
     PHILIPS_FILTER_TOTAL := "FilterTotal";
     PHILIPS_FILTER_TYPE := "FilterType";
     ATTR_TYPE := "type";
     ATTR_RAW := "raw";
     ATTR_TOTAL := "total";
     ATTR_TIME_REMAINING := "time_remaining";
     SENSOR_TYPES := [("pm25", pm25); ("temp", temp)];
     FILTER_TYPES :=
       [("pre_filter", pre_filter_description);
        ("hepa_filter", {| ATTR_PREFIX := "Hepa"; ATTR_POSTFIX := "" |})] |}.

Definition info : DiscoveryInfo :=
  {| CONF_HOST := "10.0.0.7"; CONF_MODEL := "AC1234"; CONF_NAME := "Purifier" |}.

(** A snapshot with a reading, and a pre-filter that reports its total
    and its type. *)
Definition full : Coordinator :=
  {| status := list_to_map
       [("DeviceId", VStr "XYZ"); ("pm25", VInt 7);
        ("PreFilterStatus", VInt 48); ("PreFilterTotal", VInt 360);
        ("PreFilterType", VStr "A3")] |}.

(** The same device when the total and the type are no longer reported. *)
Definition bare : Coordinator :=
  {| status := list_to_map
       [("DeviceId", VStr "XYZ"); ("pm25", VInt 7);
        ("PreFilterStatus", VInt 48)] |}.

(** A pre-filter whose total is reported as zero. *)
Definition zero_total : Coordinator :=
  {| status := list_to_map
       [("DeviceId", VStr "XYZ");
        ("PreFilterStatus", VInt 48); ("PreFilterTotal", VInt 0)] |}.

(** Clean air: the reading is present and is zero. *)
Definition clean_air : Coordinator :=
  {| status := list_to_map [("DeviceId", VStr "XYZ"); ("pm25", VInt 0)] |}.

(** A snapshot without the device id. *)
Definition anonymous : Coordinator :=
  {| status := list_to_map [("pm25", VInt 7); ("PreFilterStatus", VInt 48)] |}.

(** The pre-filter entity, as constructed on [full]. *)
Definition pre_filter : PhilipsFilterSensor.t :=
  {| PhilipsFilterSensor._model := "AC1234";
     PhilipsFilterSensor._value_key := "PreFilterStatus";
     PhilipsFilterSensor._total_key := "PreFilterTotal";
     PhilipsFilterSensor._type_key := "PreFilterType";
     PhilipsFilterSensor._attr_unit_of_measurement := Some "%";
     PhilipsFilterSensor._attr_name := "Purifier Pre Filter";
     PhilipsFilterSensor._attr_unique_id := "AC1234-XYZ-pre_filter";
     PhilipsFilterSensor._attrs := ∅ |}.

(** The [pm25] and [temp] entities, as constructed on [full]. *)
Definition pm25_sensor : PhilipsSensor.t :=
  {| PhilipsSensor._model := "AC1234";
     PhilipsSensor._description := pm25;
     PhilipsSensor._attr_device_class := None;
     PhilipsSensor._attr_icon := Some "mdi:blur";
     PhilipsSensor._attr_name := "Purifier Pm25";
     PhilipsSensor._attr_state_class := Some "measurement";
     PhilipsSensor._attr_unit_of_measurement := Some "ug/m3";
     PhilipsSensor._attr_unique_id := "AC1234-XYZ-pm25";
     PhilipsSensor._attrs := ∅;
     PhilipsSensor.kind := "pm25" |}.

Definition temp_sensor : PhilipsSensor.t :=
  {| PhilipsSensor._model := "AC1234";
     PhilipsSensor._description := temp;
     PhilipsSensor._attr_device_class := Some "temperature";
     PhilipsSensor._attr_icon := None;
     PhilipsSensor._attr_name := "Purifier Temperature";
     PhilipsSensor._attr_state_class := Some "measurement";
     PhilipsSensor._attr_unit_of_measurement := Some "C";
     PhilipsSensor._attr_unique_id := "AC1234-XYZ-temp";
     PhilipsSensor._attrs := ∅;
     PhilipsSensor.kind := "temp" |}.

(** A snapshot with a temperature of 21.5 degrees, in tenths. *)
Definition warm : Coordinator :=
  {| status := list_to_map [("DeviceId", VStr "XYZ"); ("temp", VInt 215)] |}.

(** [hass.data[DOMAIN]] with the one device, in a given state. *)
Definition hass (coordinator : Coordinator) : gmap string Coordinator :=
  {[ "10.0.0.7" := coordinator ]}.

(** The pre-filter entity after a read of its attributes on [full]. *)
Definition after_first_read : PhilipsFilterSensor.t :=
  (PhilipsFilterSensor.extra_state_attributes pre_filter full).1.

(** The HEPA filter entity, as constructed on [full]. *)
Definition hepa_filter : PhilipsFilterSensor.t :=
  {| PhilipsFilterSensor._model := "AC1234";
     PhilipsFilterSensor._value_key := "HepaFilterStatus";
     PhilipsFilterSensor._total_key := "HepaFilterTotal";
     PhilipsFilterSensor._type_key := "HepaFilterType";
     PhilipsFilterSensor._attr_unit_of_measurement := None;
     PhilipsFilterSensor._attr_name := "Purifier Hepa Filter";
     PhilipsFilterSensor._attr_unique_id := "AC1234-XYZ-hepa_filter";
     PhilipsFilterSensor._attrs := ∅ |}.

(** A pre-filter whose status is not a number. *)
Definition unreadable : Coordinator :=
  {| status := list_to_map
       [("DeviceId", VStr "XYZ"); ("PreFilterStatus", VStr "n/a")] |}.


(** A second sample of the tables, with identifiers that differ by the
    case of their letters only. *)
Definition tvoc : SensorDescription :=
  {| ATTR_LABEL := "total_volatile_organic_compounds";
     ATTR_DEVICE_CLASS := None;
     ATTR_ICON := Some "mdi:blur";
     ATTR_STATE_CLASS := Some "measurement";
     ATTR_UNIT := None;
     ATTR_VALUE := None |}.

Definition mixed_case : Const :=
  {| PHILIPS_DEVICE_ID := "DeviceId";
     PHILIPS_FILTER_STATUS := "FilterStatus";
     PHILIPS_FILTER_TOTAL := "FilterTotal";
     PHILIPS_FILTER_TYPE := "FilterType";
     ATTR_TYPE := "type";
     ATTR_RAW := "raw";
     ATTR_TOTAL := "total";
     ATTR_TIME_REMAINING := "time_remaining";
     SENSOR_TYPES := [("TVOC", tvoc); ("tvoc", tvoc)];
     FILTER_TYPES := [] |}.

(** The two [tvoc] entities of [mixed_case], as constructed on [full]. *)
Definition tvoc_sensor (kind : string) : PhilipsSensor.t :=
  {| PhilipsSensor._model := "AC1234";
     PhilipsSensor._description := tvoc;
     PhilipsSensor._attr_device_class := None;
     PhilipsSensor._attr_icon := Some "mdi:blur";
     PhilipsSensor._attr_name := "Purifier Total Volatile Organic Compounds";
     PhilipsSensor._attr_state_class := Some "measurement";
     PhilipsSensor._attr_unit_of_measurement := None;
     PhilipsSensor._attr_unique_id := "AC1234-XYZ-tvoc";
     PhilipsSensor._attrs := ∅;
     PhilipsSensor.kind := kind |}.

(** What the attributes of the first read are. *)
Definition first_attrs : gmap string value :=
  list_to_map
    [("type", VStr "A3"); ("raw", VInt 48); ("total", VInt 360);
     ("time_remaining", VStr "2 days, 0:00:00")].

End Sample.

(** ** The specification's formulas *)

(** [round(100.0 * value / total, 2)], as the specification writes the
    percentage of a filter, with what the expression raises. *)
Definition rounded_percentage (value total : value) : res StateType :=
  scaled ← PyFloat.mul_value PyFloat.hundred value;
  ratio ← PyFloat.truediv_value scaled total;
  Ok (SFloat (PyFloat.round2 ratio)).

(** The canonical duration text of a whole number of hours: the days, if
    any, then the hours of the day as [H:00:00]. *)
Definition hours_text (hours : Z) : string :=
  let d := hours / 24 in
  (if d =? 0 then ""
   else pretty d +:+ " day" +:+ (if Z.abs d =? 1 then "" else "s") +:+ ", ")
  +:+ pretty (hours mod 24) +:+ ":00:00".

(** [str(timedelta(hours=value))], with what the expression raises. *)
Definition duration_text (value : value) : res StateType :=
  td ← timedelta.of_hours value;
  Ok (SValue (VStr (timedelta.str td))).

(** A string of ASCII characters only. *)
Fixpoint ascii_only (s : string) : bool :=
  match s with
  | EmptyString => true
  | String c s' => (N_of_ascii c <? 128)%N && ascii_only s'
  end.

(** The lower-case letter of each of the 26 capital letters; any other
    character is itself. *)
Definition lowercase_letter (c : ascii) : ascii :=
  match c with
  | "A" => "a" | "B" => "b" | "C" => "c" | "D" => "d" | "E" => "e"
  | "F" => "f" | "G" => "g" | "H" => "h" | "I" => "i" | "J" => "j"
  | "K" => "k" | "L" => "l" | "M" => "m" | "N" => "n" | "O" => "o"
  | "P" => "p" | "Q" => "q" | "R" => "r" | "S" => "s" | "T" => "t"
  | "U" => "u" | "V" => "v" | "W" => "w" | "X" => "x" | "Y" => "y"
  | "Z" => "z"
  | _ => c
  end%char.

(** An identifier in lower case, letter by letter. *)
Fixpoint lowercased (s : string) : string :=
  match s with
  | EmptyString => EmptyString
  | String c s' => String (lowercase_letter c) (lowercased s')
  end.

(** [total == 0] on a scalar. *)
Definition equals_zero (v : value) : Prop :=
  v = VInt 0 ∨ v = VBool false.

(** ** Notions used to state the properties *)

(** What the handler of the constructors logs when the device id is
    missing: the lookup error. *)
Definition not_ready_log `{Const} : list LogRecord :=
  [LogError "Failed retrieving unique_id: %s" (KeyError PHILIPS_DEVICE_ID)].

(** [is_supported] as a boolean; an identifier that is not declared is
    not supported. *)
Definition supports `{Const} (device_status : gmap string value) (kind : string) : bool :=
  match PhilipsFilterSensor.is_supported device_status kind with
  | Ok b => b
  | Raise _ => false
  end.

(** The test of the sensor loop, [coordinator.status.get(sensor)]. *)
Definition reports (device_status : gmap string value) (sensor : string) : bool :=
  truthy (dict_get device_status sensor).

(** The entities that a run of the two loops yields: one Simple Sensor
    per identifier that passes the test of the first loop, then one
    Filter Sensor per supported filter type. *)
Definition setup_result `{Const} (coordinator : Coordinator) (info : DiscoveryInfo)
    (entities : list Entity) : Prop :=
  ∃ sensors filters,
    entities = (Sensor <$> sensors) ++ (FilterSensor <$> filters)
    ∧ Forall2
        (λ k e, PhilipsSensor.__init__ coordinator (CONF_NAME info) (CONF_MODEL info) k
                = ([], Ok e))
        (filter (λ k, reports (status coordinator) k = true) (table_keys SENSOR_TYPES))
        sensors
    ∧ Forall2
        (λ k e, PhilipsFilterSensor.__init__ coordinator (CONF_NAME info) (CONF_MODEL info) k
                = ([], Ok e))
        (filter (λ k, supports (status coordinator) k = true) (table_keys FILTER_TYPES))
        filters.

(** The entity after its attributes were read on each of the snapshots
    in turn, whatever the outcome of the reads. *)
Fixpoint read_attributes `{Const} (self : PhilipsFilterSensor.t)
    (snapshots : list Coordinator) : PhilipsFilterSensor.t :=
  match snapshots with
  | [] => self
  | coordinator :: later =>
      read_attributes (PhilipsFilterSensor.extra_state_attributes self coordinator).1 later
  end.

(** The keys that [extra_state_attributes] writes. *)
Definition attribute_keys `{Const} : list string :=
  [ATTR_TYPE; ATTR_RAW; ATTR_TOTAL; ATTR_TIME_REMAINING].

(** An identifier passes one of the two tests of setup. *)
Definition eligible `{Const} (device_status : gmap string value) : Prop :=
  (∃ k, k ∈ table_keys SENSOR_TYPES ∧ reports device_status k = true)
  ∨ (∃ k, k ∈ table_keys FILTER_TYPES ∧ supports device_status k = true).

(** * Properties *)

Section Dictionaries.
Context {V : Type}.
Implicit Types (d : gmap string V) (k : string).

Lemma contains_Some d k v : d !! k = Some v → contains d k = true.
Proof. intros E. unfold contains. rewrite E. apply bool_decide_eq_true. eauto. Qed.

Lemma contains_None d k : d !! k = None → contains d k = false.
Proof.
  intros E. unfold contains. rewrite E. apply bool_decide_eq_false.
  intros [v Hv]. discriminate.
Qed.

Lemma contains_true d k : contains d k = true ↔ is_Some (d !! k).
Proof. unfold contains. apply bool_decide_eq_true. Qed.

Lemma getitem_Some d k v : d !! k = Some v → getitem d k = Ok v.
Proof. intros E. unfold getitem. now rewrite E. Qed.

Lemma getitem_None d k : d !! k = None → getitem d k = Raise (KeyError k).
Proof. intros E. unfold getitem. now rewrite E. Qed.

End Dictionaries.

Section FilterReads.
Context `{Const}.
Import PhilipsFilterSensor.
Implicit Types (self : PhilipsFilterSensor.t) (coordinator : Coordinator).

Lemma state_with_total self coordinator value total :
  status coordinator !! _total_key self = Some total →
  status coordinator !! _value_key self = Some value →
  state self coordinator = rounded_percentage value total.
Proof.
  intros Ht Hv.
  unfold state, _has_total, _percentage, _value, _total, _device_status.
  rewrite (contains_Some _ _ _ Ht), (getitem_Some _ _ _ Hv), (getitem_Some _ _ _ Ht).
  unfold rounded_percentage. cbn.
  destruct (PyFloat.mul_value PyFloat.hundred value) as [scaled|e]; cbn; [|reflexivity].
  destruct (PyFloat.truediv_value scaled total); reflexivity.
Qed.

Lemma state_without_total self coordinator value :
  status coordinator !! _total_key self = None →
  status coordinator !! _value_key self = Some value →
  state self coordinator = duration_text value.
Proof.
  intros Ht Hv.
  unfold state, _has_total, _time_remaining, _value, _device_status.
  rewrite (contains_None _ _ Ht), (getitem_Some _ _ _ Hv).
  unfold duration_text. cbn.
  destruct (timedelta.of_hours value); reflexivity.
Qed.

(** C1, as amended: whenever [total_key] is in the live snapshot at the
    time of the read, [state] is [round(100.0 * value / total, 2)] of the
    live entries, whatever the snapshot was at construction; once the
    value entry is replaced, a read gives the percentage of the new
    value; and on a snapshot without [total_key] the state is never a
    percentage. *)
Theorem C1_state_is_percentage_of_live_snapshot self coordinator value total :
  status coordinator !! _total_key self = Some total →
  status coordinator !! _value_key self = Some value →
  state self coordinator = rounded_percentage value total
  ∧ (∀ value',
       _value_key self ≠ _total_key self →
       state self {| status := <[_value_key self := value']> (status coordinator) |}
       = rounded_percentage value' total)
  ∧ (∀ later,
       status later !! _total_key self = None →
       ∀ f, state self later ≠ Ok (SFloat f)).
Proof.
  intros Ht Hv. split; [|split].
  - now apply state_with_total.
  - intros value' Hne. apply state_with_total; cbn.
    + now rewrite lookup_insert_ne.
    + apply lookup_insert_eq.
  - intros later Hnone f. unfold state, _has_total, _device_status.
    rewrite (contains_None _ _ Hnone).
    destruct (_time_remaining self later); discriminate.
Qed.

End FilterReads.

Section Constructors.
Context `{Const}.
Implicit Types (coordinator : Coordinator) (name model kind : string).

Lemma sensor_init_cases coordinator name model kind description :
  table_get SENSOR_TYPES kind = Ok description →
  PhilipsSensor.__init__ coordinator name model kind =
    match status coordinator !! PHILIPS_DEVICE_ID with
    | Some device_id =>
        ([], Ok {| PhilipsSensor._model := model;
                   PhilipsSensor._description := description;
                   PhilipsSensor._attr_device_class := ATTR_DEVICE_CLASS description;
                   PhilipsSensor._attr_icon := ATTR_ICON description;
                   PhilipsSensor._attr_name :=
                     name +:+ " " +:+ title (replace_underscores (ATTR_LABEL description));
                   PhilipsSensor._attr_state_class := ATTR_STATE_CLASS description;
                   PhilipsSensor._attr_unit_of_measurement := ATTR_UNIT description;
                   PhilipsSensor._attr_unique_id :=
                     model +:+ "-" +:+ py_str device_id +:+ "-" +:+ lower kind;
                   PhilipsSensor._attrs := ∅;
                   PhilipsSensor.kind := kind |})
    | None => (not_ready_log, Raise PlatformNotReady)
    end.
Proof.
  intros Hd. unfold PhilipsSensor.__init__, _device_status, getitem.
  rewrite Hd. destruct (status coordinator !! PHILIPS_DEVICE_ID); reflexivity.
Qed.

Lemma sensor_init_undeclared coordinator name model kind e :
  table_get SENSOR_TYPES kind = Raise e →
  PhilipsSensor.__init__ coordinator name model kind = ([], Raise e).
Proof. intros Hd. unfold PhilipsSensor.__init__. now rewrite Hd. Qed.

Lemma filter_init_cases coordinator name model kind description :
  table_get FILTER_TYPES kind = Ok description →
  PhilipsFilterSensor.__init__ coordinator name model kind =
    let prefix := ATTR_PREFIX description in
    let postfix := ATTR_POSTFIX description in
    match status coordinator !! PHILIPS_DEVICE_ID with
    | Some device_id =>
        ([], Ok {| PhilipsFilterSensor._model := model;
                   PhilipsFilterSensor._value_key := str_join [prefix; PHILIPS_FILTER_STATUS; postfix];
                   PhilipsFilterSensor._total_key := str_join [prefix; PHILIPS_FILTER_TOTAL; postfix];
                   PhilipsFilterSensor._type_key := str_join [prefix; PHILIPS_FILTER_TYPE; postfix];
                   PhilipsFilterSensor._attr_unit_of_measurement :=
                     if contains (status coordinator)
                          (str_join [prefix; PHILIPS_FILTER_TOTAL; postfix])
                     then Some PERCENTAGE else None;
                   PhilipsFilterSensor._attr_name :=
                     name +:+ " " +:+ title (replace_underscores kind);
                   PhilipsFilterSensor._attr_unique_id :=
                     model +:+ "-" +:+ py_str device_id +:+ "-" +:+ kind;
                   PhilipsFilterSensor._attrs := ∅ |})
    | None => (not_ready_log, Raise PlatformNotReady)
    end.
Proof.
  intros Hd. unfold PhilipsFilterSensor.__init__, _device_status, getitem.
  rewrite Hd. destruct (status coordinator !! PHILIPS_DEVICE_ID); reflexivity.
Qed.

Lemma filter_init_undeclared coordinator name model kind e :
  table_get FILTER_TYPES kind = Raise e →
  PhilipsFilterSensor.__init__ coordinator name model kind = ([], Raise e).
Proof. intros Hd. unfold PhilipsFilterSensor.__init__. now rewrite Hd. Qed.

Lemma table_get_declared {V} (t : list (string * V)) k :
  k ∈ table_keys t → ∃ v, table_get t k = Ok v ∧ (k, v) ∈ t.
Proof.
  unfold table_keys. induction t as [|[k' v'] t IH]; cbn; intros Hin.
  - now apply elem_of_nil in Hin.
  - destruct (decide (k' = k)) as [->|Hne].
    + exists v'. split; [reflexivity | apply list_elem_of_here].
    + apply elem_of_cons in Hin as [Heq|Hin]; [congruence|].
      destruct (IH Hin) as (v & Hv & Hm). exists v. split; [assumption|].
      now apply list_elem_of_further.
Qed.

Lemma table_get_Ok {V} (t : list (string * V)) k v :
  table_get t k = Ok v → k ∈ table_keys t.
Proof.
  unfold table_keys. induction t as [|[k' v'] t IH]; cbn; [discriminate|].
  destruct (decide (k' = k)) as [->|Hne]; intros E.
  - apply list_elem_of_here.
  - apply list_elem_of_further. now apply IH.
Qed.

End Constructors.

Section Durations.
Import timedelta.

Lemma append_empty_r (s : string) : s +:+ "" = s.
Proof. induction s as [|c s IH]; [reflexivity | exact (f_equal (String c) IH)]. Qed.

Lemma of_hours_int (hours : Z) :
  -999999999 ≤ hours / 24 ≤ 999999999 →
  of_hours (VInt hours)
  = Ok {| days := hours / 24; seconds := hours mod 24 * 3600; microseconds := 0 |}.
Proof.
  intros [Hlo Hhi]. unfold of_hours, of_microseconds, us_per_hour.
  replace (hours * 3600000000) with (hours * 3600 * 1000000) by lia.
  rewrite Z.div_mul by lia. rewrite Z.mod_mul by lia.
  change 86400 with (24 * 3600).
  rewrite Z.div_mul_cancel_r by lia.
  rewrite Z.mul_mod_distr_r by lia.
  destruct (Z.leb_spec (-999999999) (hours / 24)); [|lia].
  destruct (Z.leb_spec (hours / 24) 999999999); [|lia].
  reflexivity.
Qed.

Lemma str_whole_hours (d h : Z) :
  str {| days := d; seconds := h * 3600; microseconds := 0 |}
  = (if d =? 0 then ""
     else pretty d +:+ " day" +:+ (if Z.abs d =? 1 then "" else "s") +:+ ", ")
    +:+ pretty h +:+ ":00:00".
Proof.
  unfold str. cbn [days seconds microseconds].
  replace (h * 3600) with (h * 60 * 60) by lia.
  rewrite Z.div_mul, Z.mod_mul, Z.div_mul, Z.mod_mul by lia.
  change (0 =? 0) with true. cbv iota.
  change (zero_padded 2 0) with "00".
  rewrite append_empty_r. reflexivity.
Qed.

Lemma duration_text_int (hours : Z) :
  -999999999 ≤ hours / 24 ≤ 999999999 →
  duration_text (VInt hours) = Ok (SValue (VStr (hours_text hours))).
Proof.
  intros Hrange. unfold duration_text. rewrite of_hours_int by assumption.
  cbn. now rewrite str_whole_hours.
Qed.

End Durations.

Section FilterBranches.
Context `{Const}.
Import PhilipsFilterSensor.
Implicit Types (self : PhilipsFilterSensor.t) (coordinator : Coordinator).

Lemma zero_operand total : equals_zero total → PyFloat.operand total = Ok (S754_zero false).
Proof. intros [->| ->]; reflexivity. Qed.

(** C2, as amended: with [snapshot[total_key] == 0] a read of [state]
    never returns (so neither infinity nor NaN); what it raises is the
    built-in [ZeroDivisionError] of the division, unguarded, once
    [100.0 * value] has been computed, and the error of that product
    otherwise. *)
Theorem C2_zero_total_raises_ZeroDivisionError self coordinator value total :
  status coordinator !! _total_key self = Some total →
  status coordinator !! _value_key self = Some value →
  equals_zero total →
  state self coordinator =
    match PyFloat.operand value with
    | Ok _ => Raise ZeroDivisionError
    | Raise e => Raise e
    end
  ∧ ∀ r, state self coordinator ≠ Ok r.
Proof.
  intros Ht Hv Hz.
  assert (state self coordinator =
            match PyFloat.operand value with
            | Ok _ => Raise ZeroDivisionError
            | Raise e => Raise e
            end) as E.
  { rewrite (state_with_total _ _ _ _ Ht Hv).
    unfold rounded_percentage, PyFloat.mul_value, PyFloat.truediv_value.
    rewrite (zero_operand _ Hz).
    destruct (PyFloat.operand value); reflexivity. }
  split; [exact E|].
  intros r. rewrite E. destruct (PyFloat.operand value); discriminate.
Qed.

(** C7: with [total_key] absent from the snapshot, [state] is the text of
    [timedelta(hours=value)] for the value of the snapshot; for a whole
    number of hours that is the days, if any, and [H:00:00], and 48 gives
    ["2 days, 0:00:00"]. *)
Theorem C7_state_is_duration_text self coordinator value :
  status coordinator !! _total_key self = None →
  status coordinator !! _value_key self = Some value →
  state self coordinator = duration_text value
  ∧ (∀ hours,
       value = VInt hours →
       -999999999 ≤ hours / 24 ≤ 999999999 →
       state self coordinator = Ok (SValue (VStr (hours_text hours))))
  ∧ (value = VInt 48 →
     state self coordinator = Ok (SValue (VStr "2 days, 0:00:00"))).
Proof.
  intros Ht Hv. rewrite (state_without_total _ _ _ Ht Hv).
  split; [reflexivity|]. split.
  - intros hours -> Hrange. now apply duration_text_int.
  - intros ->. reflexivity.
Qed.

Lemma state_kind_follows_snapshot self coordinator r :
  state self coordinator = Ok r →
  if contains (status coordinator) (_total_key self)
  then ∃ f, r = SFloat f
  else ∃ s, r = SValue (VStr s).
Proof.
  unfold state, _has_total, _device_status.
  destruct (contains (status coordinator) (_total_key self)).
  - destruct (_percentage self coordinator) as [p|e]; cbn; intros E; [|discriminate].
    exists p. congruence.
  - destruct (_time_remaining self coordinator) as [s|e]; cbn; intros E; [|discriminate].
    exists s. congruence.
Qed.



End FilterBranches.

Section Constructed.
Context `{Const}.
Implicit Types (coordinator : Coordinator) (name model kind : string).

Lemma sensor_init_inv coordinator name model kind log self :
  PhilipsSensor.__init__ coordinator name model kind = (log, Ok self) →
  ∃ description device_id,
    table_get SENSOR_TYPES kind = Ok description
    ∧ status coordinator !! PHILIPS_DEVICE_ID = Some device_id
    ∧ log = []
    ∧ PhilipsSensor._description self = description
    ∧ PhilipsSensor.kind self = kind
    ∧ PhilipsSensor._attr_unique_id self
      = model +:+ "-" +:+ py_str device_id +:+ "-" +:+ lower kind.
Proof.
  intros Hinit.
  destruct (table_get SENSOR_TYPES kind) as [description|e] eqn:Hd.
  - rewrite (sensor_init_cases _ _ _ _ _ Hd) in Hinit.
    destruct (status coordinator !! PHILIPS_DEVICE_ID) as [device_id|]; [|discriminate].
    injection Hinit as <- <-. exists description, device_id. repeat split.
  - rewrite (sensor_init_undeclared _ _ _ _ _ Hd) in Hinit. discriminate.
Qed.

Lemma filter_init_inv coordinator name model kind log self :
  PhilipsFilterSensor.__init__ coordinator name model kind = (log, Ok self) →
  ∃ description device_id,
    table_get FILTER_TYPES kind = Ok description
    ∧ status coordinator !! PHILIPS_DEVICE_ID = Some device_id
    ∧ log = []
    ∧ PhilipsFilterSensor._value_key self
      = str_join [ATTR_PREFIX description; PHILIPS_FILTER_STATUS; ATTR_POSTFIX description]
    ∧ PhilipsFilterSensor._attr_unique_id self
      = model +:+ "-" +:+ py_str device_id +:+ "-" +:+ kind.
Proof.
  intros Hinit.
  destruct (table_get FILTER_TYPES kind) as [description|e] eqn:Hd.
  - rewrite (filter_init_cases _ _ _ _ _ Hd) in Hinit. cbv zeta in Hinit.
    destruct (status coordinator !! PHILIPS_DEVICE_ID) as [device_id|]; [|discriminate].
    injection Hinit as <- <-. exists description, device_id. repeat split.
  - rewrite (filter_init_undeclared _ _ _ _ _ Hd) in Hinit. discriminate.
Qed.

Lemma sensor_state_lookup (self : PhilipsSensor.t) coordinator value :
  status coordinator !! PhilipsSensor.kind self = Some value →
  PhilipsSensor.state self coordinator =
    match ATTR_VALUE (PhilipsSensor._description self) with
    | Some convert => convert value (status coordinator)
    | None => Ok (SValue value)
    end.
Proof.
  intros Hv. unfold PhilipsSensor.state, _device_status.
  now rewrite (getitem_Some _ _ _ Hv).
Qed.

(** C8: a Simple Sensor constructed for a declared identifier reads
    [snapshot[identifier]] from the snapshot of the read; with a
    conversion function in its definition the state is that function on
    the raw value and the whole snapshot, without one it is the raw
    value. *)
Theorem C8_sensor_state_reads_live_and_converts
    coordinator0 name model kind log self :
  PhilipsSensor.__init__ coordinator0 name model kind = (log, Ok self) →
  ∃ description,
    table_get SENSOR_TYPES kind = Ok description
    ∧ ∀ coordinator value,
        status coordinator !! kind = Some value →
        PhilipsSensor.state self coordinator =
          match ATTR_VALUE description with
          | Some convert => convert value (status coordinator)
          | None => Ok (SValue value)
          end.
Proof.
  intros Hinit.
  destruct (sensor_init_inv _ _ _ _ _ _ Hinit)
    as (description & device_id & Hd & _ & _ & Hdesc & Hkind & _).
  exists description. split; [exact Hd|].
  intros coordinator value Hv. rewrite <- Hdesc.
  apply sensor_state_lookup. now rewrite Hkind.
Qed.

(** C5: when the device-id key is not in the snapshot, constructing a
    Simple Sensor or a Filter Sensor for a declared identifier logs the
    lookup error and raises the not-ready error, and nothing else. *)
Theorem C5_missing_device_id_raises_not_ready coordinator name model kind :
  status coordinator !! PHILIPS_DEVICE_ID = None →
  (kind ∈ table_keys SENSOR_TYPES →
   PhilipsSensor.__init__ coordinator name model kind
   = (not_ready_log, Raise PlatformNotReady))
  ∧ (kind ∈ table_keys FILTER_TYPES →
     PhilipsFilterSensor.__init__ coordinator name model kind
     = (not_ready_log, Raise PlatformNotReady)).
Proof.
  intros Hid. split; intros Hin.
  - destruct (table_get_declared _ _ Hin) as (description & Hd & _).
    rewrite (sensor_init_cases _ _ _ _ _ Hd). now rewrite Hid.
  - destruct (table_get_declared _ _ Hin) as (description & Hd & _).
    rewrite (filter_init_cases _ _ _ _ _ Hd). cbv zeta. now rewrite Hid.
Qed.

Lemma to_lower_lowercase_letter c : to_lower c = lowercase_letter c.
Proof. destruct c as [[] [] [] [] [] [] [] []]; reflexivity. Qed.

Lemma lower_lowercased s : lower s = lowercased s.
Proof.
  unfold lower. induction s as [|c s IH]; [reflexivity|].
  cbn [string_map lowercased]. now rewrite IH, to_lower_lowercase_letter.
Qed.

(** C9: a Simple Sensor that was constructed has the unique identifier
    [model-device_id-kind] with the device id of the snapshot and, for an
    identifier of ASCII characters, each capital letter of the kind
    replaced by its lower-case letter, so ["AC1234"], ["XYZ"] and
    ["pm25"] give ["AC1234-XYZ-pm25"], and so does ["PM25"]; a Filter
    Sensor has [model-device_id-kind] with the kind as it is. *)
Theorem C9_unique_id coordinator name model kind :
  (∀ log self,
     PhilipsSensor.__init__ coordinator name model kind = (log, Ok self) →
     ascii_only kind = true →
     ∃ device_id,
       status coordinator !! PHILIPS_DEVICE_ID = Some device_id
       ∧ PhilipsSensor._attr_unique_id self
         = model +:+ "-" +:+ py_str device_id +:+ "-" +:+ lowercased kind)
  ∧ (∀ log self,
       PhilipsFilterSensor.__init__ coordinator name model kind = (log, Ok self) →
       ∃ device_id,
         status coordinator !! PHILIPS_DEVICE_ID = Some device_id
         ∧ PhilipsFilterSensor._attr_unique_id self
           = model +:+ "-" +:+ py_str device_id +:+ "-" +:+ kind)
  ∧ (∀ log self,
       model = "AC1234" → kind = "pm25" →
       status coordinator !! PHILIPS_DEVICE_ID = Some (VStr "XYZ") →
       PhilipsSensor.__init__ coordinator name model kind = (log, Ok self) →
       PhilipsSensor._attr_unique_id self = "AC1234-XYZ-pm25")
  ∧ (∀ log self,
       model = "AC1234" → kind = "PM25" →
       status coordinator !! PHILIPS_DEVICE_ID = Some (VStr "XYZ") →
       PhilipsSensor.__init__ coordinator name model kind = (log, Ok self) →
       PhilipsSensor._attr_unique_id self = "AC1234-XYZ-pm25").
Proof.
  split; [|split; [|split]].
  - intros log self Hinit _.
    destruct (sensor_init_inv _ _ _ _ _ _ Hinit)
      as (description & device_id & _ & Hid & _ & _ & _ & Huid).
    exists device_id. split; [exact Hid|]. now rewrite <- lower_lowercased.
  - intros log self Hinit.
    destruct (filter_init_inv _ _ _ _ _ _ Hinit)
      as (description & device_id & _ & Hid & _ & _ & Huid).
    now exists device_id.
  - intros log self -> -> Hid Hinit.
    destruct (sensor_init_inv _ _ _ _ _ _ Hinit)
      as (description & device_id & _ & Hid' & _ & _ & _ & Huid).
    rewrite Hid in Hid'. injection Hid' as <-. rewrite Huid. reflexivity.
  - intros log self -> -> Hid Hinit.
    destruct (sensor_init_inv _ _ _ _ _ _ Hinit)
      as (description & device_id & _ & Hid' & _ & _ & _ & Huid).
    rewrite Hid in Hid'. injection Hid' as <-. rewrite Huid. reflexivity.
Qed.

End Constructed.

Section LoggedMonad.
Context {A B : Type}.

Lemma bind_ok (f : A → Logged B) (a : A) : mbind f (([], Ok a) : Logged A) = f a.
Proof. cbn. destruct (f a) as [log r]. reflexivity. Qed.

Lemma bind_ret (f : A → Logged B) (a : A) : mbind f (mret a) = f a.
Proof. apply bind_ok. Qed.

Lemma bind_lift_ok (f : A → Logged B) (a : A) : mbind f (lift (Ok a)) = f a.
Proof. apply bind_ok. Qed.

Lemma bind_raise (f : A → Logged B) (log : list LogRecord) (e : exn) :
  mbind f ((log, Raise e) : Logged A) = (log, Raise e).
Proof. reflexivity. Qed.

End LoggedMonad.

Section Loops.
Context {A B E : Type}.
Implicit Types (cond : A → bool) (make : A → Logged B) (inj : B → E).

Lemma Forall2_elem_of_l (R : A → B → Prop) xs ys x :
  Forall2 R xs ys → x ∈ xs → ∃ y, y ∈ ys ∧ R x y.
Proof.
  induction 1 as [|x' y' xs ys HR _ IH]; intros Hin.
  - now apply elem_of_nil in Hin.
  - apply elem_of_cons in Hin as [->|Hin].
    + exists y'. split; [apply list_elem_of_here | exact HR].
    + destruct (IH Hin) as (y & Hy & HRy). exists y.
      split; [now apply list_elem_of_further | exact HRy].
Qed.

Lemma Forall2_elem_of_r (R : A → B → Prop) xs ys y :
  Forall2 R xs ys → y ∈ ys → ∃ x, x ∈ xs ∧ R x y.
Proof.
  induction 1 as [|x' y' xs ys HR _ IH]; intros Hin.
  - now apply elem_of_nil in Hin.
  - apply elem_of_cons in Hin as [->|Hin].
    + exists x'. split; [apply list_elem_of_here | exact HR].
    + destruct (IH Hin) as (x & Hx & HRx). exists x.
      split; [now apply list_elem_of_further | exact HRx].
Qed.

(** A loop that appends [inj (make x)] for the [x] that pass [cond], when
    no [make] fails or logs: it ends with the entities of the [x] that
    pass, in order. *)
Lemma for_each_collect cond make inj (body : list E → A → Logged (list E)) xs :
  (∀ acc x, x ∈ xs →
     body acc x = if cond x then (e ← make x; mret (acc ++ [inj e])) else mret acc) →
  (∀ x, x ∈ xs → cond x = true → ∃ e, make x = ([], Ok e)) →
  ∀ acc, ∃ es,
    for_each xs body acc = ([], Ok (acc ++ (inj <$> es)))
    ∧ Forall2 (λ x e, make x = ([], Ok e)) (filter (λ x, cond x = true) xs) es.
Proof.
  induction xs as [|x xs IH]; intros Hbody Hmake acc.
  - exists []. cbn. rewrite app_nil_r. split; [reflexivity | constructor].
  - assert (∀ acc x', x' ∈ xs →
              body acc x' = if cond x' then (e ← make x'; mret (acc ++ [inj e])) else mret acc)
      as Hbody' by (intros; apply Hbody; now apply list_elem_of_further).
    assert (∀ x', x' ∈ xs → cond x' = true → ∃ e, make x' = ([], Ok e))
      as Hmake' by (intros; apply Hmake; [now apply list_elem_of_further | assumption]).
    cbn [for_each]. rewrite (Hbody acc x) by apply list_elem_of_here.
    destruct (cond x) eqn:Hc.
    + destruct (Hmake x (list_elem_of_here _ _) Hc) as [e He]. rewrite He.
      destruct (IH Hbody' Hmake' (acc ++ [inj e])) as (es & Hrun & Hall).
      exists (e :: es). split.
      * cbn. rewrite Hrun. cbn. now rewrite <- app_assoc.
      * rewrite filter_cons_True by exact Hc. now constructor.
    + destruct (IH Hbody' Hmake' acc) as (es & Hrun & Hall).
      exists es. split.
      * cbn. now rewrite Hrun.
      * rewrite filter_cons_False by congruence. exact Hall.
Qed.

(** The same loop when every [make] fails alike: it stops at the first
    [x] that passes, if there is one. *)
Lemma for_each_all_fail cond make inj (body : list E → A → Logged (list E)) xs log e :
  (∀ acc x, x ∈ xs →
     body acc x = if cond x then (e ← make x; mret (acc ++ [inj e])) else mret acc) →
  (∀ x, x ∈ xs → cond x = true → make x = (log, Raise e)) →
  ∀ acc,
    for_each xs body acc
    = if decide (filter (λ x, cond x = true) xs = []) then ([], Ok acc) else (log, Raise e).
Proof.
  induction xs as [|x xs IH]; intros Hbody Hmake acc.
  - reflexivity.
  - cbn [for_each]. rewrite (Hbody acc x) by apply list_elem_of_here.
    destruct (cond x) eqn:Hc.
    + rewrite (Hmake x (list_elem_of_here _ _) Hc).
      rewrite filter_cons_True by exact Hc.
      rewrite decide_False by discriminate. reflexivity.
    + rewrite bind_ret, filter_cons_False by congruence.
      apply IH.
      * intros; apply Hbody; now apply list_elem_of_further.
      * intros; apply Hmake; [now apply list_elem_of_further | assumption].
Qed.

End Loops.

Section SetupRuns.
Context `{Const}.
Implicit Types (hass : gmap string Coordinator) (info : DiscoveryInfo).
Implicit Types (coordinator : Coordinator) (kind : string).

Lemma is_supported_declared device_status kind description :
  table_get FILTER_TYPES kind = Ok description →
  PhilipsFilterSensor.is_supported device_status kind
  = Ok (contains device_status
          (str_join [ATTR_PREFIX description; PHILIPS_FILTER_STATUS; ATTR_POSTFIX description])).
Proof. intros Hd. unfold PhilipsFilterSensor.is_supported. now rewrite Hd. Qed.

Lemma supports_declared device_status kind description :
  table_get FILTER_TYPES kind = Ok description →
  supports device_status kind
  = contains device_status
      (str_join [ATTR_PREFIX description; PHILIPS_FILTER_STATUS; ATTR_POSTFIX description]).
Proof. intros Hd. unfold supports. now rewrite (is_supported_declared _ _ _ Hd). Qed.

Lemma filter_body_shape coordinator info (acc : list Entity) kind :
  kind ∈ table_keys FILTER_TYPES →
  (supported ← lift (PhilipsFilterSensor.is_supported (status coordinator) kind);
   if supported : bool
   then e ← PhilipsFilterSensor.__init__ coordinator (CONF_NAME info) (CONF_MODEL info) kind;
        mret (acc ++ [FilterSensor e])
   else mret acc)
  = (if supports (status coordinator) kind
     then e ← PhilipsFilterSensor.__init__ coordinator (CONF_NAME info) (CONF_MODEL info) kind;
          mret (acc ++ [FilterSensor e])
     else mret acc).
Proof.
  intros Hin. destruct (table_get_declared _ _ Hin) as (description & Hd & _).
  rewrite (supports_declared _ _ _ Hd), (is_supported_declared _ _ _ Hd).
  destruct (contains _ _); [|reflexivity].
  destruct (PhilipsFilterSensor.__init__ _ _ _ _) as [log [e|err]]; reflexivity.
Qed.

(** With the device id in the snapshot, setup returns, logs nothing and
    registers the entities of the two loops. *)
Lemma setup_runs hass info coordinator device_id :
  hass !! CONF_HOST info = Some coordinator →
  status coordinator !! PHILIPS_DEVICE_ID = Some device_id →
  ∃ entities,
    async_setup_platform hass (Some info) = ([], Ok (Some (entities, false)))
    ∧ setup_result coordinator info entities.
Proof.
  intros Hc Hid. unfold async_setup_platform. rewrite (getitem_Some _ _ _ Hc).
  destruct (for_each_collect (reports (status coordinator))
              (PhilipsSensor.__init__ coordinator (CONF_NAME info) (CONF_MODEL info))
              Sensor
              (λ sensors sensor,
                 if truthy (dict_get (status coordinator) sensor)
                 then e ← PhilipsSensor.__init__ coordinator (CONF_NAME info) (CONF_MODEL info) sensor;
                      mret (sensors ++ [Sensor e])
                 else mret sensors)
              (table_keys SENSOR_TYPES)) with (acc := @nil Entity)
    as (sensors & Hrun1 & Hall1).
  { reflexivity. }
  { intros k Hin _. destruct (table_get_declared _ _ Hin) as (description & Hd & _).
    rewrite (sensor_init_cases _ _ _ _ _ Hd), Hid. eauto. }
  destruct (for_each_collect (supports (status coordinator))
              (PhilipsFilterSensor.__init__ coordinator (CONF_NAME info) (CONF_MODEL info))
              FilterSensor
              (λ sensors filter,
                 supported ← lift (PhilipsFilterSensor.is_supported (status coordinator) filter);
                 if supported : bool
                 then e ← PhilipsFilterSensor.__init__ coordinator (CONF_NAME info) (CONF_MODEL info) filter;
                      mret (sensors ++ [FilterSensor e])
                 else mret sensors)
              (table_keys FILTER_TYPES)) with (acc := Sensor <$> sensors)
    as (filters & Hrun2 & Hall2).
  { intros acc k Hin. now apply filter_body_shape. }
  { intros k Hin _. destruct (table_get_declared _ _ Hin) as (description & Hd & _).
    rewrite (filter_init_cases _ _ _ _ _ Hd). cbv zeta. rewrite Hid. eauto. }
  exists ((Sensor <$> sensors) ++ (FilterSensor <$> filters)). split.
  - rewrite app_nil_l in Hrun1.
    cbv zeta. rewrite bind_lift_ok, Hrun1, bind_ok, Hrun2, bind_ok. reflexivity.
  - now exists sensors, filters.
Qed.

End SetupRuns.

Section SetupOutcome.
Context `{Const}.
Implicit Types (hass : gmap string Coordinator) (info : DiscoveryInfo).
Implicit Types (coordinator : Coordinator) (kind : string).

(** Without the device id in the snapshot, setup registers nothing when
    no identifier passes the tests of the loops, and otherwise raises the
    not-ready error of the first constructor it calls. *)
Lemma setup_without_device_id hass info coordinator :
  hass !! CONF_HOST info = Some coordinator →
  status coordinator !! PHILIPS_DEVICE_ID = None →
  async_setup_platform hass (Some info) =
    if decide (filter (λ k, reports (status coordinator) k = true) (table_keys SENSOR_TYPES) = []
               ∧ filter (λ k, supports (status coordinator) k = true) (table_keys FILTER_TYPES) = [])
    then ([], Ok (Some ([], false)))
    else (not_ready_log, Raise PlatformNotReady).
Proof.
  intros Hc Hid. unfold async_setup_platform. rewrite (getitem_Some _ _ _ Hc).
  cbv zeta. rewrite bind_lift_ok.
  rewrite (for_each_all_fail (reports (status coordinator))
             (PhilipsSensor.__init__ coordinator (CONF_NAME info) (CONF_MODEL info))
             Sensor _ _ not_ready_log PlatformNotReady).
  2: { reflexivity. }
  2: { intros k Hin _. destruct (table_get_declared _ _ Hin) as (description & Hd & _).
       rewrite (sensor_init_cases _ _ _ _ _ Hd). now rewrite Hid. }
  destruct (decide (filter (λ k, reports (status coordinator) k = true)
                      (table_keys SENSOR_TYPES) = [])) as [Hs|Hs].
  - rewrite bind_ok.
    rewrite (for_each_all_fail (supports (status coordinator))
               (PhilipsFilterSensor.__init__ coordinator (CONF_NAME info) (CONF_MODEL info))
               FilterSensor _ _ not_ready_log PlatformNotReady).
    2: { intros acc k Hin. now apply filter_body_shape. }
    2: { intros k Hin _. destruct (table_get_declared _ _ Hin) as (description & Hd & _).
         rewrite (filter_init_cases _ _ _ _ _ Hd). cbv zeta. now rewrite Hid. }
    destruct (decide (filter (λ k, supports (status coordinator) k = true)
                        (table_keys FILTER_TYPES) = [])) as [Hf|Hf].
    + rewrite bind_ok. rewrite decide_True by (split; assumption). reflexivity.
    + rewrite bind_raise. rewrite decide_False by (intros [_ ?]; contradiction). reflexivity.
  - rewrite bind_raise. rewrite decide_False by (intros [? _]; contradiction). reflexivity.
Qed.

(** Whenever setup registers entities, they are those of the two
    loops. *)
Lemma setup_inv hass info log entities b :
  async_setup_platform hass (Some info) = (log, Ok (Some (entities, b))) →
  ∃ coordinator,
    hass !! CONF_HOST info = Some coordinator
    ∧ log = [] ∧ b = false
    ∧ setup_result coordinator info entities.
Proof.
  intros Hrun.
  destruct (hass !! CONF_HOST info) as [coordinator|] eqn:Hc.
  - exists coordinator. split; [reflexivity|].
    destruct (status coordinator !! PHILIPS_DEVICE_ID) as [device_id|] eqn:Hid.
    + destruct (setup_runs _ _ _ _ Hc Hid) as (entities' & Hrun' & Hres).
      rewrite Hrun' in Hrun. injection Hrun as <- <- <-. now repeat split.
    + rewrite (setup_without_device_id _ _ _ Hc Hid) in Hrun.
      destruct (decide _) as [[Hs Hf]|_]; [|discriminate].
      injection Hrun as <- <- <-. repeat split.
      exists [], []. rewrite Hs, Hf. repeat split; constructor.
  - unfold async_setup_platform in Hrun. rewrite (getitem_None _ _ Hc) in Hrun.
    discriminate.
Qed.

Lemma setup_result_sensor coordinator info entities kind :
  setup_result coordinator info entities →
  (∃ e, PhilipsSensor.__init__ coordinator (CONF_NAME info) (CONF_MODEL info) kind = ([], Ok e)
        ∧ Sensor e ∈ entities)
  ↔ kind ∈ table_keys SENSOR_TYPES ∧ reports (status coordinator) kind = true.
Proof.
  intros (sensors & filters & -> & Hs & _). split.
  - intros (e & Hinit & Hin).
    apply elem_of_app in Hin as [Hin|Hin];
      apply list_elem_of_fmap in Hin as (e' & Heq & Hin); [|discriminate].
    injection Heq as <-.
    destruct (Forall2_elem_of_r _ _ _ _ Hs Hin) as (k & Hk & Hinit').
    apply list_elem_of_filter in Hk as [Hrep Hk].
    destruct (sensor_init_inv _ _ _ _ _ _ Hinit) as (_ & _ & _ & _ & _ & _ & Hkind & _).
    destruct (sensor_init_inv _ _ _ _ _ _ Hinit') as (_ & _ & _ & _ & _ & _ & Hkind' & _).
    assert (k = kind) as -> by congruence. now split.
  - intros [Hk Hrep].
    assert (kind ∈ filter (λ k, reports (status coordinator) k = true) (table_keys SENSOR_TYPES))
      as Hin by (apply list_elem_of_filter; now split).
    destruct (Forall2_elem_of_l _ _ _ _ Hs Hin) as (e & He & Hinit).
    exists e. split; [exact Hinit|].
    apply elem_of_app. left. now apply list_elem_of_fmap_2.
Qed.

Lemma setup_result_filter coordinator info entities kind :
  setup_result coordinator info entities →
  (∃ e, PhilipsFilterSensor.__init__ coordinator (CONF_NAME info) (CONF_MODEL info) kind
        = ([], Ok e)
        ∧ FilterSensor e ∈ entities)
  ↔ kind ∈ table_keys FILTER_TYPES ∧ supports (status coordinator) kind = true.
Proof.
  intros (sensors & filters & -> & _ & Hf). split.
  - intros (e & Hinit & Hin).
    apply elem_of_app in Hin as [Hin|Hin];
      apply list_elem_of_fmap in Hin as (e' & Heq & Hin); [discriminate|].
    injection Heq as <-.
    destruct (Forall2_elem_of_r _ _ _ _ Hf Hin) as (k & Hk & Hinit').
    apply list_elem_of_filter in Hk as [Hsup Hk].
    destruct (filter_init_inv _ _ _ _ _ _ Hinit) as (_ & d1 & _ & Hid & _ & _ & Huid).
    destruct (filter_init_inv _ _ _ _ _ _ Hinit') as (_ & d2 & _ & Hid' & _ & _ & Huid').
    rewrite Hid in Hid'. injection Hid' as <-. rewrite Huid in Huid'.
    do 4 apply String.app_inj in Huid'. subst k. now split.
  - intros [Hk Hsup].
    assert (kind ∈ filter (λ k, supports (status coordinator) k = true) (table_keys FILTER_TYPES))
      as Hin by (apply list_elem_of_filter; now split).
    destruct (Forall2_elem_of_l _ _ _ _ Hf Hin) as (e & He & Hinit).
    exists e. split; [exact Hinit|].
    apply elem_of_app. right. now apply list_elem_of_fmap_2.
Qed.

End SetupOutcome.

Section SetupClaims.
Context `{Const}.
Implicit Types (hass : gmap string Coordinator) (info : DiscoveryInfo).
Implicit Types (coordinator : Coordinator) (kind : string).

(** The test of the sensor loop passes only for an identifier that is a
    key of the snapshot. *)
Lemma reports_present (device_status : gmap string value) kind :
  reports device_status kind = true → is_Some (device_status !! kind).
Proof.
  unfold reports, dict_get. destruct (device_status !! kind); [eauto | discriminate].
Qed.

(** The test of the sensor loop is the truth value of the entry, not
    its presence. *)
Lemma reports_truthy (device_status : gmap string value) kind value :
  device_status !! kind = Some value → reports device_status kind = truthy value.
Proof. intros Hv. unfold reports, dict_get. now rewrite Hv. Qed.

(** C4: for a declared filter type, [is_supported] is the presence of
    the derived value key [prefix + PHILIPS_FILTER_STATUS + postfix] in
    the snapshot; whenever setup registers its entities, the Filter
    Sensor of the type is among them if and only if that key is in the
    snapshot, and with the device id in the snapshot setup does register
    them. *)
Theorem C4_filter_sensor_iff_value_key hass info coordinator kind description :
  hass !! CONF_HOST info = Some coordinator →
  table_get FILTER_TYPES kind = Ok description →
  let value_key :=
    str_join [ATTR_PREFIX description; PHILIPS_FILTER_STATUS; ATTR_POSTFIX description] in
  PhilipsFilterSensor.is_supported (status coordinator) kind
  = Ok (contains (status coordinator) value_key)
  ∧ (∀ log entities b,
       async_setup_platform hass (Some info) = (log, Ok (Some (entities, b))) →
       (∃ e, PhilipsFilterSensor.__init__ coordinator (CONF_NAME info) (CONF_MODEL info) kind
             = ([], Ok e)
             ∧ FilterSensor e ∈ entities)
       ↔ is_Some (status coordinator !! value_key))
  ∧ (∀ device_id,
       status coordinator !! PHILIPS_DEVICE_ID = Some device_id →
       ∃ entities,
         async_setup_platform hass (Some info) = ([], Ok (Some (entities, false)))).
Proof.
  intros Hc Hd value_key. split; [|split].
  - now apply is_supported_declared.
  - intros log entities b Hrun.
    destruct (setup_inv _ _ _ _ _ Hrun) as (coordinator' & Hc' & _ & _ & Hres).
    rewrite Hc in Hc'. injection Hc' as <-.
    rewrite (setup_result_filter _ _ _ kind Hres).
    rewrite (supports_declared _ _ _ Hd), contains_true.
    split; [now intros [_ ?] | intros Hk; split; [|exact Hk]].
    now apply table_get_Ok with description.
  - intros device_id Hid.
    destruct (setup_runs _ _ _ _ Hc Hid) as (entities & Hrun & _). now exists entities.
Qed.

(** What setup does for the declared sensor identifiers: a Simple Sensor
    is registered if and only if [status.get(identifier)] is true, which
    needs the key and a value that is neither [None], [False], [0] nor
    the empty string. *)
Lemma setup_sensor_iff_reports hass info coordinator kind log entities b :
  hass !! CONF_HOST info = Some coordinator →
  kind ∈ table_keys SENSOR_TYPES →
  async_setup_platform hass (Some info) = (log, Ok (Some (entities, b))) →
  (∃ e, PhilipsSensor.__init__ coordinator (CONF_NAME info) (CONF_MODEL info) kind = ([], Ok e)
        ∧ Sensor e ∈ entities)
  ↔ ∃ value, status coordinator !! kind = Some value ∧ truthy value = true.
Proof.
  intros Hc Hk Hrun.
  destruct (setup_inv _ _ _ _ _ Hrun) as (coordinator' & Hc' & _ & _ & Hres).
  rewrite Hc in Hc'. injection Hc' as <-.
  rewrite (setup_result_sensor _ _ _ kind Hres). split.
  - intros [_ Hrep]. destruct (reports_present _ _ Hrep) as [value Hv].
    exists value. split; [exact Hv|]. now rewrite <- (reports_truthy _ _ _ Hv).
  - intros (value & Hv & Ht). split; [exact Hk|]. now rewrite (reports_truthy _ _ _ Hv).
Qed.

End SetupClaims.

Section FilterAttributes.
Context `{Const}.
Import PhilipsFilterSensor.
Implicit Types (self : PhilipsFilterSensor.t) (coordinator : Coordinator).

Lemma NoDup_4 (a b c d : string) :
  NoDup [a; b; c; d] → a ≠ b ∧ a ≠ c ∧ a ≠ d ∧ b ≠ c ∧ b ≠ d ∧ c ≠ d.
Proof.
  intros Hnd.
  apply NoDup_cons in Hnd as [Ha Hnd].
  apply NoDup_cons in Hnd as [Hb Hnd].
  apply NoDup_cons in Hnd as [Hc _].
  repeat (rewrite not_elem_of_cons in Ha).
  repeat (rewrite not_elem_of_cons in Hb).
  repeat (rewrite not_elem_of_cons in Hc).
  tauto.
Qed.

Lemma extra_state_attributes_inv self coordinator self' attrs :
  extra_state_attributes self coordinator = (self', Ok attrs) →
  ∃ value,
    status coordinator !! _value_key self = Some value
    ∧ _attrs self' = attrs
    ∧ let attrs1 :=
        match status coordinator !! _type_key self with
        | Some type => <[ATTR_TYPE := type]> (_attrs self)
        | None => _attrs self
        end in
      let attrs2 := <[ATTR_RAW := value]> attrs1 in
      match status coordinator !! _total_key self with
      | Some total =>
          ∃ remaining,
            _time_remaining self coordinator = Ok remaining
            ∧ attrs = <[ATTR_TIME_REMAINING := VStr remaining]> (<[ATTR_TOTAL := total]> attrs2)
      | None => attrs = attrs2
      end.
Proof.
  unfold extra_state_attributes, _value, _total, _has_total, _device_status, getitem.
  destruct (status coordinator !! _value_key self) as [value|]; [|discriminate].
  intros Hrun. exists value. split; [reflexivity|].
  destruct (status coordinator !! _total_key self) as [total|] eqn:Ht.
  - rewrite (contains_Some _ _ _ Ht) in Hrun.
    destruct (_time_remaining self coordinator) as [remaining|e]; [|discriminate].
    injection Hrun as <- <-. split; [reflexivity|]. now exists remaining.
  - rewrite (contains_None _ _ Ht) in Hrun.
    injection Hrun as <- <-. now split.
Qed.

(** C6, as amended: a read of the extra attributes that succeeds hands
    out the dict of the entity, updated in place: ["raw"] is the value of
    the snapshot; ["type"] is the type of the snapshot when [type_key] is
    in it; the total and the duration text of the value are set when
    [total_key] is in it; every other entry, and these three when their
    key is not in the snapshot, is what an earlier read left.  On a dict
    that is still empty the three are present exactly when their key is
    in the snapshot. *)
Theorem C6_attributes_are_updated_in_place self coordinator self' attrs :
  NoDup [ATTR_TYPE; ATTR_RAW; ATTR_TOTAL; ATTR_TIME_REMAINING] →
  extra_state_attributes self coordinator = (self', Ok attrs) →
  _attrs self' = attrs
  ∧ (∃ value, status coordinator !! _value_key self = Some value
              ∧ attrs !! ATTR_RAW = Some value)
  ∧ attrs !! ATTR_TYPE
    = match status coordinator !! _type_key self with
      | Some type => Some type
      | None => _attrs self !! ATTR_TYPE
      end
  ∧ match status coordinator !! _total_key self with
    | Some total =>
        attrs !! ATTR_TOTAL = Some total
        ∧ ∃ remaining,
            _time_remaining self coordinator = Ok remaining
            ∧ attrs !! ATTR_TIME_REMAINING = Some (VStr remaining)
    | None =>
        attrs !! ATTR_TOTAL = _attrs self !! ATTR_TOTAL
        ∧ attrs !! ATTR_TIME_REMAINING = _attrs self !! ATTR_TIME_REMAINING
    end
  ∧ (∀ k, k ∉ [ATTR_TYPE; ATTR_RAW; ATTR_TOTAL; ATTR_TIME_REMAINING] →
          attrs !! k = _attrs self !! k)
  ∧ (_attrs self = ∅ →
     (is_Some (attrs !! ATTR_TYPE) ↔ is_Some (status coordinator !! _type_key self))
     ∧ (is_Some (attrs !! ATTR_TOTAL) ↔ is_Some (status coordinator !! _total_key self))
     ∧ (is_Some (attrs !! ATTR_TIME_REMAINING)
        ↔ is_Some (status coordinator !! _total_key self))).
Proof.
  intros Hnd Hrun.
  destruct (NoDup_4 _ _ _ _ Hnd) as (Hab & Hac & Had & Hbc & Hbd & Hcd).
  destruct (extra_state_attributes_inv _ _ _ _ Hrun) as (value & Hv & Hself & Hattrs).
  cbv zeta in Hattrs.
  assert (attrs !! ATTR_TYPE
          = match status coordinator !! _type_key self with
            | Some type => Some type
            | None => _attrs self !! ATTR_TYPE
            end) as Htype.
  { destruct (status coordinator !! _total_key self);
      [destruct Hattrs as (remaining & _ & Hattrs) |]; rewrite Hattrs;
      destruct (status coordinator !! _type_key self);
      now simplify_map_eq. }
  assert (match status coordinator !! _total_key self with
          | Some total =>
              attrs !! ATTR_TOTAL = Some total
              ∧ ∃ remaining,
                  _time_remaining self coordinator = Ok remaining
                  ∧ attrs !! ATTR_TIME_REMAINING = Some (VStr remaining)
          | None =>
              attrs !! ATTR_TOTAL = _attrs self !! ATTR_TOTAL
              ∧ attrs !! ATTR_TIME_REMAINING = _attrs self !! ATTR_TIME_REMAINING
          end) as Htotal.
  { destruct (status coordinator !! _total_key self).
    - destruct Hattrs as (remaining & Hrem & Hattrs). rewrite Hattrs. split.
      + now simplify_map_eq.
      + exists remaining. split; [exact Hrem | now simplify_map_eq].
    - rewrite Hattrs.
      destruct (status coordinator !! _type_key self); split; now simplify_map_eq. }
  split; [exact Hself|]. split; [|split; [exact Htype|split; [exact Htotal|split]]].
  - exists value. split; [exact Hv|].
    destruct (status coordinator !! _total_key self);
      [destruct Hattrs as (remaining & _ & Hattrs) |]; rewrite Hattrs;
      now simplify_map_eq.
  - intros k Hk. repeat (rewrite not_elem_of_cons in Hk).
    destruct Hk as (Hk1 & Hk2 & Hk3 & Hk4 & _).
    destruct (status coordinator !! _total_key self);
      [destruct Hattrs as (remaining & _ & Hattrs) |]; rewrite Hattrs;
      destruct (status coordinator !! _type_key self);
      now simplify_map_eq.
  - intros Hempty. rewrite Htype. rewrite Hempty in *.
    destruct (status coordinator !! _total_key self) as [total|].
    + destruct Htotal as (-> & remaining & _ & ->).
      destruct (status coordinator !! _type_key self); rewrite ?lookup_empty;
        repeat split; eauto.
    + destruct Htotal as (-> & ->).
      destruct (status coordinator !! _type_key self); rewrite ?lookup_empty;
        repeat split; eauto.
Qed.

End FilterAttributes.

(** * Worked examples on the sample configuration *)

Section Examples.
Import Sample.
#[local] Existing Instance Sample.const.

Example pre_filter_constructed :
  PhilipsFilterSensor.__init__ full "Purifier" "AC1234" "pre_filter" = ([], Ok pre_filter).
Proof. vm_compute. reflexivity. Qed.

Example pm25_constructed :
  PhilipsSensor.__init__ full "Purifier" "AC1234" "pm25" = ([], Ok pm25_sensor).
Proof. vm_compute. reflexivity. Qed.

(** 48 of 360 is 13.33 percent, the float [7504122879106089 * 2^-49]. *)
Example pre_filter_percentage :
  PhilipsFilterSensor.state pre_filter full
  = Ok (SFloat (S754_finite false 7504122879106089 (-49))).
Proof. vm_compute. reflexivity. Qed.

Example pre_filter_duration :
  PhilipsFilterSensor.state pre_filter bare = Ok (SValue (VStr "2 days, 0:00:00")).
Proof. vm_compute. reflexivity. Qed.

(** 21.5 degrees in tenths, converted by the definition's function. *)
Example temp_converted :
  PhilipsSensor.state temp_sensor warm = Ok (SValue (VInt 21)).
Proof. vm_compute. reflexivity. Qed.

Example pm25_raw :
  PhilipsSensor.state pm25_sensor full = Ok (SValue (VInt 7)).
Proof. vm_compute. reflexivity. Qed.

(** [100.0] is [float(100)]. *)
Example hundred_of_int : PyFloat.of_int 100 = Ok PyFloat.hundred.
Proof. vm_compute. reflexivity. Qed.

(** [round(2.675, 2)] is [2.67]: the float nearest to 2.675 lies below
    the tie. *)
Example round2_below_tie :
  PyFloat.round2 (S754_finite false 6023564501608038 (-51))
  = S754_finite false 6012305502539612 (-51).
Proof. vm_compute. reflexivity. Qed.

(** [round(0.125, 2)] is [0.12]: an exact tie goes to the even digit. *)
Example round2_tie_to_even :
  PyFloat.round2 (S754_finite false 4503599627370496 (-55))
  = S754_finite false 8646911284551352 (-56).
Proof. vm_compute. reflexivity. Qed.

Example setup_on_full :
  async_setup_platform (hass full) (Some info)
  = ([], Ok (Some ([Sensor pm25_sensor; FilterSensor pre_filter], false))).
Proof. vm_compute. reflexivity. Qed.

Example setup_without_discovery :
  async_setup_platform (hass full) None = ([], Ok None).
Proof. reflexivity. Qed.

Example setup_on_anonymous :
  async_setup_platform (hass anonymous) (Some info)
  = (not_ready_log, Raise PlatformNotReady).
Proof. vm_compute. reflexivity. Qed.

Example first_read_attrs :
  PhilipsFilterSensor.extra_state_attributes pre_filter full
  = (PhilipsFilterSensor.set_attrs pre_filter first_attrs, Ok first_attrs).
Proof. vm_compute. reflexivity. Qed.

End Examples.

(** * Where the code departs from the specification *)

Section Departures.
Import Sample.
#[local] Existing Instance Sample.const.

(** C1, as stated, fails: the pre-filter is constructed on a snapshot
    that has [total_key]; read on a later snapshot that has lost it, its
    state is the duration text, not a percentage. *)
Lemma C1_total_present_at_construction_only :
  PhilipsFilterSensor.__init__ full "Purifier" "AC1234" "pre_filter" = ([], Ok pre_filter)
  ∧ contains (status full) (PhilipsFilterSensor._total_key pre_filter) = true
  ∧ PhilipsFilterSensor.state pre_filter bare = Ok (SValue (VStr "2 days, 0:00:00"))
  ∧ ∀ f, PhilipsFilterSensor.state pre_filter bare ≠ Ok (SFloat f).
Proof.
  split; [vm_compute; reflexivity|]. split; [vm_compute; reflexivity|].
  assert (PhilipsFilterSensor.state pre_filter bare = Ok (SValue (VStr "2 days, 0:00:00")))
    as E by (vm_compute; reflexivity).
  split; [exact E|]. intros f. rewrite E. discriminate.
Qed.

(** C2, as stated, fails: with a total of zero the read raises the
    [ZeroDivisionError] of the float division itself. *)
Lemma C2_zero_total_is_unguarded :
  status zero_total !! PhilipsFilterSensor._total_key pre_filter = Some (VInt 0)
  ∧ PhilipsFilterSensor.state pre_filter zero_total = Raise ZeroDivisionError.
Proof. split; vm_compute; reflexivity. Qed.

(** C3 fails on the code: ["pm25"] is a declared identifier and a key of
    the snapshot, with the reading 0, and setup registers no entity. *)
Theorem C3_present_zero_reading_gets_no_sensor :
  "pm25" ∈ table_keys SENSOR_TYPES
  ∧ status clean_air !! "pm25" = Some (VInt 0)
  ∧ status clean_air !! PHILIPS_DEVICE_ID = Some (VStr "XYZ")
  ∧ async_setup_platform (hass clean_air) (Some info) = ([], Ok (Some ([], false))).
Proof.
  split; [apply list_elem_of_here|].
  repeat split; vm_compute; reflexivity.
Qed.

(** C6, as stated, fails: after a read on [full], a read on [bare], where
    neither [type_key] nor [total_key] is in the snapshot, still hands
    out the type, the total and the duration text of the first read. *)
Lemma C6_entries_of_an_earlier_read_persist :
  status bare !! PhilipsFilterSensor._type_key after_first_read = None
  ∧ status bare !! PhilipsFilterSensor._total_key after_first_read = None
  ∧ (PhilipsFilterSensor.extra_state_attributes after_first_read bare).2 = Ok first_attrs
  ∧ first_attrs !! ATTR_TYPE = Some (VStr "A3")
  ∧ first_attrs !! ATTR_TOTAL = Some (VInt 360)
  ∧ first_attrs !! ATTR_TIME_REMAINING = Some (VStr "2 days, 0:00:00").
Proof. repeat split; vm_compute; reflexivity. Qed.

End Departures.

(** * The properties at work on the sample configuration *)

Section Witnesses.
Import Sample.
#[local] Existing Instance Sample.const.

Lemma C1_witness :
  (status full !! PhilipsFilterSensor._total_key pre_filter = Some (VInt 360)
   ∧ status full !! PhilipsFilterSensor._value_key pre_filter = Some (VInt 48))
  ∧ PhilipsFilterSensor.state pre_filter full = rounded_percentage (VInt 48) (VInt 360)
  ∧ (∀ value',
       PhilipsFilterSensor._value_key pre_filter ≠ PhilipsFilterSensor._total_key pre_filter →
       PhilipsFilterSensor.state pre_filter
         {| status := <[PhilipsFilterSensor._value_key pre_filter := value']> (status full) |}
       = rounded_percentage value' (VInt 360))
  ∧ (∀ later,
       status later !! PhilipsFilterSensor._total_key pre_filter = None →
       ∀ f, PhilipsFilterSensor.state pre_filter later ≠ Ok (SFloat f)).
Proof.
  split; [split; vm_compute; reflexivity|].
  apply (C1_state_is_percentage_of_live_snapshot pre_filter full (VInt 48) (VInt 360));
    vm_compute; reflexivity.
Defined.

Lemma C2_witness :
  (status zero_total !! PhilipsFilterSensor._total_key pre_filter = Some (VInt 0)
   ∧ status zero_total !! PhilipsFilterSensor._value_key pre_filter = Some (VInt 48)
   ∧ equals_zero (VInt 0))
  ∧ PhilipsFilterSensor.state pre_filter zero_total =
      match PyFloat.operand (VInt 48) with
      | Ok _ => Raise ZeroDivisionError
      | Raise e => Raise e
      end
  ∧ ∀ r, PhilipsFilterSensor.state pre_filter zero_total ≠ Ok r.
Proof.
  split; [repeat split; try (vm_compute; reflexivity); now left|].
  apply (C2_zero_total_raises_ZeroDivisionError pre_filter zero_total (VInt 48) (VInt 0));
    [vm_compute; reflexivity | vm_compute; reflexivity | now left].
Defined.

Lemma C4_witness :
  (hass full !! CONF_HOST info = Some full
   ∧ table_get FILTER_TYPES "pre_filter" = Ok pre_filter_description)
  ∧ let value_key :=
      str_join [ATTR_PREFIX pre_filter_description; PHILIPS_FILTER_STATUS;
            ATTR_POSTFIX pre_filter_description] in
    PhilipsFilterSensor.is_supported (status full) "pre_filter"
    = Ok (contains (status full) value_key)
    ∧ (∀ log entities b,
         async_setup_platform (hass full) (Some info) = (log, Ok (Some (entities, b))) →
         (∃ e, PhilipsFilterSensor.__init__ full (CONF_NAME info) (CONF_MODEL info) "pre_filter"
               = ([], Ok e)
               ∧ FilterSensor e ∈ entities)
         ↔ is_Some (status full !! value_key))
    ∧ (∀ device_id,
         status full !! PHILIPS_DEVICE_ID = Some device_id →
         ∃ entities,
           async_setup_platform (hass full) (Some info) = ([], Ok (Some (entities, false)))).
Proof.
  assert (hass full !! CONF_HOST info = Some full) as Hc by (vm_compute; reflexivity).
  assert (table_get FILTER_TYPES "pre_filter" = Ok pre_filter_description) as Hd
    by (vm_compute; reflexivity).
  split; [split; assumption|].
  exact (C4_filter_sensor_iff_value_key (hass full) info full "pre_filter"
           pre_filter_description Hc Hd).
Defined.

Lemma C5_witness :
  status anonymous !! PHILIPS_DEVICE_ID = None
  ∧ PhilipsSensor.__init__ anonymous "Purifier" "AC1234" "pm25"
    = (not_ready_log, Raise PlatformNotReady)
  ∧ PhilipsFilterSensor.__init__ anonymous "Purifier" "AC1234" "pre_filter"
    = (not_ready_log, Raise PlatformNotReady).
Proof.
  assert (status anonymous !! PHILIPS_DEVICE_ID = None) as Hid by (vm_compute; reflexivity).
  split; [exact Hid|]. split.
  - apply (C5_missing_device_id_raises_not_ready anonymous "Purifier" "AC1234" "pm25" Hid).
    apply list_elem_of_here.
  - apply (C5_missing_device_id_raises_not_ready anonymous "Purifier" "AC1234" "pre_filter" Hid).
    apply list_elem_of_here.
Defined.

Lemma C6_witness :
  (NoDup [ATTR_TYPE; ATTR_RAW; ATTR_TOTAL; ATTR_TIME_REMAINING]
   ∧ PhilipsFilterSensor.extra_state_attributes pre_filter full
     = (after_first_read, Ok first_attrs))
  ∧ PhilipsFilterSensor._attrs after_first_read = first_attrs
  ∧ first_attrs !! ATTR_RAW = Some (VInt 48)
  ∧ first_attrs !! ATTR_TYPE = Some (VStr "A3")
  ∧ first_attrs !! ATTR_TOTAL = Some (VInt 360).
Proof.
  assert (NoDup [ATTR_TYPE; ATTR_RAW; ATTR_TOTAL; ATTR_TIME_REMAINING]) as Hnd
    by (apply (bool_decide_unpack _); vm_compute; exact I).
  assert (PhilipsFilterSensor.extra_state_attributes pre_filter full
          = (after_first_read, Ok first_attrs)) as Hrun by (vm_compute; reflexivity).
  split; [split; assumption|].
  destruct (C6_attributes_are_updated_in_place pre_filter full after_first_read first_attrs
              Hnd Hrun) as (Hself & _ & _ & _ & _ & _).
  split; [exact Hself|]. repeat split; vm_compute; reflexivity.
Defined.

Lemma C7_witness :
  (status bare !! PhilipsFilterSensor._total_key pre_filter = None
   ∧ status bare !! PhilipsFilterSensor._value_key pre_filter = Some (VInt 48))
  ∧ PhilipsFilterSensor.state pre_filter bare = Ok (SValue (VStr "2 days, 0:00:00")).
Proof.
  split; [split; vm_compute; reflexivity|].
  apply (C7_state_is_duration_text pre_filter bare (VInt 48));
    [vm_compute; reflexivity | vm_compute; reflexivity | reflexivity].
Defined.

Lemma C8_witness :
  PhilipsSensor.__init__ full "Purifier" "AC1234" "temp" = ([], Ok temp_sensor)
  ∧ ∃ description,
      table_get SENSOR_TYPES "temp" = Ok description
      ∧ ∀ coordinator value,
          status coordinator !! "temp" = Some value →
          PhilipsSensor.state temp_sensor coordinator =
            match ATTR_VALUE description with
            | Some convert => convert value (status coordinator)
            | None => Ok (SValue value)
            end.
Proof.
  assert (PhilipsSensor.__init__ full "Purifier" "AC1234" "temp" = ([], Ok temp_sensor))
    as Hinit by (vm_compute; reflexivity).
  split; [exact Hinit|].
  exact (C8_sensor_state_reads_live_and_converts full "Purifier" "AC1234" "temp" []
           temp_sensor Hinit).
Defined.

Lemma C9_witness :
  PhilipsSensor.__init__ full "Purifier" "AC1234" "pm25" = ([], Ok pm25_sensor)
  ∧ status full !! PHILIPS_DEVICE_ID = Some (VStr "XYZ")
  ∧ PhilipsSensor._attr_unique_id pm25_sensor = "AC1234-XYZ-pm25"
  ∧ PhilipsSensor.__init__ (H := mixed_case) full "Purifier" "AC1234" "TVOC"
    = ([], Ok (tvoc_sensor "TVOC"))
  ∧ ascii_only "TVOC" = true
  ∧ ∃ device_id,
      status full !! PHILIPS_DEVICE_ID (Const := mixed_case) = Some device_id
      ∧ PhilipsSensor._attr_unique_id (tvoc_sensor "TVOC")
        = "AC1234" +:+ "-" +:+ py_str device_id +:+ "-" +:+ lowercased "TVOC".
Proof.
  assert (PhilipsSensor.__init__ full "Purifier" "AC1234" "pm25" = ([], Ok pm25_sensor))
    as Hinit by (vm_compute; reflexivity).
  assert (status full !! PHILIPS_DEVICE_ID = Some (VStr "XYZ")) as Hid
    by (vm_compute; reflexivity).
  assert (PhilipsSensor.__init__ (H := mixed_case) full "Purifier" "AC1234" "TVOC"
          = ([], Ok (tvoc_sensor "TVOC"))) as Hupper by (vm_compute; reflexivity).
  split; [exact Hinit|]. split; [exact Hid|]. split; [|split; [exact Hupper|split]].
  - destruct (C9_unique_id full "Purifier" "AC1234" "pm25") as (_ & _ & Hexample & _).
    exact (Hexample [] pm25_sensor eq_refl eq_refl Hid Hinit).
  - reflexivity.
  - destruct (C9_unique_id (H := mixed_case) full "Purifier" "AC1234" "TVOC")
      as (Hlower & _).
    exact (Hlower [] (tvoc_sensor "TVOC") Hupper eq_refl).
Defined.


End Witnesses.

(** * Further properties of setup *)

Section SetupBehaviour.
Context `{Const}.
Implicit Types (hass : gmap string Coordinator) (info : DiscoveryInfo).
Implicit Types (coordinator : Coordinator) (kind : string).

Lemma filter_nil_iff {A} (P : A → Prop) `{∀ x, Decision (P x)} (l : list A) :
  filter P l = [] ↔ ∀ x, x ∈ l → ¬ P x.
Proof.
  split.
  - intros Hnil x Hin HP.
    assert (x ∈ filter P l) as Hx by (apply list_elem_of_filter; now split).
    rewrite Hnil in Hx. now apply elem_of_nil in Hx.
  - intros Hall. destruct (filter P l) as [|x l'] eqn:E; [reflexivity|].
    assert (x ∈ filter P l) as Hx by (rewrite E; apply list_elem_of_here).
    apply list_elem_of_filter in Hx as [HP Hin]. now destruct (Hall x Hin).
Qed.

Lemma not_eligible_iff (device_status : gmap string value) :
  ¬ eligible device_status
  ↔ filter (λ k, reports device_status k = true) (table_keys SENSOR_TYPES) = []
    ∧ filter (λ k, supports device_status k = true) (table_keys FILTER_TYPES) = [].
Proof.
  rewrite !filter_nil_iff. unfold eligible. split.
  - intros Hno. split; intros k Hin Hk; apply Hno; [left | right]; now exists k.
  - intros [Hs Hf] [(k & Hin & Hk)|(k & Hin & Hk)]; [now apply (Hs k) | now apply (Hf k)].
Qed.

Lemma eligible_of_not_empty (device_status : gmap string value) :
  ¬ (filter (λ k, reports device_status k = true) (table_keys SENSOR_TYPES) = []
     ∧ filter (λ k, supports device_status k = true) (table_keys FILTER_TYPES) = []) →
  eligible device_status.
Proof.
  intros Hne.
  destruct (filter (λ k, reports device_status k = true) (table_keys SENSOR_TYPES))
    as [|k ks] eqn:Es.
  - destruct (filter (λ k, supports device_status k = true) (table_keys FILTER_TYPES))
      as [|k ks] eqn:Ef; [now destruct Hne|].
    right. exists k.
    assert (k ∈ filter (λ k, supports device_status k = true) (table_keys FILTER_TYPES))
      as Hk by (rewrite Ef; apply list_elem_of_here).
    apply list_elem_of_filter in Hk as [Hk Hin]. now split.
  - left. exists k.
    assert (k ∈ filter (λ k, reports device_status k = true) (table_keys SENSOR_TYPES))
      as Hk by (rewrite Es; apply list_elem_of_here).
    apply list_elem_of_filter in Hk as [Hk Hin]. now split.
Qed.

(** On well-formed inputs, a [discovery_info] that holds its three
    entries and a [hass.data[DOMAIN]] whose hosts hold their coordinator,
    setup raises in two ways only: the [KeyError] of a host that
    [hass.data[DOMAIN]] does not know, with nothing logged, and the
    not-ready error of a snapshot without device id, with the one record
    of the constructor that failed. *)
Theorem setup_raises_only_KeyError_or_not_ready hass discovery_info log e :
  async_setup_platform hass discovery_info = (log, Raise e) →
  ∃ info,
    discovery_info = Some info
    ∧ ((hass !! CONF_HOST info = None ∧ e = KeyError (CONF_HOST info) ∧ log = [])
       ∨ (∃ coordinator,
            hass !! CONF_HOST info = Some coordinator
            ∧ status coordinator !! PHILIPS_DEVICE_ID = None
            ∧ eligible (status coordinator)
            ∧ e = PlatformNotReady ∧ log = not_ready_log)).
Proof.
  destruct discovery_info as [info|]; [|discriminate].
  intros Hrun. exists info. split; [reflexivity|].
  destruct (hass !! CONF_HOST info) as [coordinator|] eqn:Hc.
  - right. exists coordinator. split; [reflexivity|].
    destruct (status coordinator !! PHILIPS_DEVICE_ID) as [device_id|] eqn:Hid.
    + destruct (setup_runs _ _ _ _ Hc Hid) as (entities & Hrun' & _).
      rewrite Hrun' in Hrun. discriminate.
    + rewrite (setup_without_device_id _ _ _ Hc Hid) in Hrun.
      destruct (decide _) as [Hnone|Hsome]; [discriminate|].
      injection Hrun as <- <-. repeat split.
      now apply eligible_of_not_empty.
  - left. unfold async_setup_platform in Hrun. rewrite (getitem_None _ _ Hc) in Hrun.
    injection Hrun as <- <-. now repeat split.
Qed.

(** On a snapshot without device id, setup raises the not-ready error
    exactly when some declared identifier passes its test; when none
    does, it registers the empty list. *)
Theorem setup_without_device_id_outcome hass info coordinator :
  hass !! CONF_HOST info = Some coordinator →
  status coordinator !! PHILIPS_DEVICE_ID = None →
  (eligible (status coordinator)
   ∧ async_setup_platform hass (Some info) = (not_ready_log, Raise PlatformNotReady))
  ∨ (¬ eligible (status coordinator)
     ∧ async_setup_platform hass (Some info) = ([], Ok (Some ([], false)))).
Proof.
  intros Hc Hid. rewrite (setup_without_device_id _ _ _ Hc Hid).
  destruct (decide _) as [Hnone|Hsome].
  - right. split; [now apply not_eligible_iff | reflexivity].
  - left. split; [now apply eligible_of_not_empty | reflexivity].
Qed.

End SetupBehaviour.

Section SetupOrder.
Context `{Const}.
Implicit Types (hass : gmap string Coordinator) (info : DiscoveryInfo).
Implicit Types (coordinator : Coordinator) (kind : string).

Lemma constructed_sensor_kinds coordinator name model ks sensors :
  Forall2 (λ k e, PhilipsSensor.__init__ coordinator name model k = ([], Ok e)) ks sensors →
  PhilipsSensor.kind <$> sensors = ks.
Proof.
  induction 1 as [|k e ks sensors Hinit _ IH]; [reflexivity|].
  destruct (sensor_init_inv _ _ _ _ _ _ Hinit) as (_ & _ & _ & _ & _ & _ & Hkind & _).
  cbn. now rewrite Hkind, IH.
Qed.

Lemma constructed_filter_ids coordinator name model device_id ks filters :
  status coordinator !! PHILIPS_DEVICE_ID = Some device_id →
  Forall2 (λ k e, PhilipsFilterSensor.__init__ coordinator name model k = ([], Ok e))
    ks filters →
  PhilipsFilterSensor._attr_unique_id <$> filters
  = (λ k, model +:+ "-" +:+ py_str device_id +:+ "-" +:+ k) <$> ks.
Proof.
  intros Hid. induction 1 as [|k e ks filters Hinit _ IH]; [reflexivity|].
  destruct (filter_init_inv _ _ _ _ _ _ Hinit) as (_ & device_id' & _ & Hid' & _ & _ & Huid).
  rewrite Hid in Hid'. injection Hid' as <-.
  cbn. now rewrite Huid, IH.
Qed.

(** Whenever setup registers entities it has logged nothing and passes
    [update_before_add=False]; the list holds the Simple Sensors first,
    one for each identifier of [SENSOR_TYPES] whose entry is true, in the
    order of the table, then the Filter Sensors, one for each supported
    type of [FILTER_TYPES], in the order of the table. *)
Theorem setup_registers_in_table_order hass info log entities b :
  async_setup_platform hass (Some info) = (log, Ok (Some (entities, b))) →
  ∃ coordinator sensors filters,
    hass !! CONF_HOST info = Some coordinator
    ∧ log = [] ∧ b = false
    ∧ entities = (Sensor <$> sensors) ++ (FilterSensor <$> filters)
    ∧ PhilipsSensor.kind <$> sensors
      = filter (λ k, reports (status coordinator) k = true) (table_keys SENSOR_TYPES)
    ∧ length filters
      = length (filter (λ k, supports (status coordinator) k = true) (table_keys FILTER_TYPES))
    ∧ ∀ device_id,
        status coordinator !! PHILIPS_DEVICE_ID = Some device_id →
        PhilipsFilterSensor._attr_unique_id <$> filters
        = (λ k, CONF_MODEL info +:+ "-" +:+ py_str device_id +:+ "-" +:+ k)
            <$> filter (λ k, supports (status coordinator) k = true) (table_keys FILTER_TYPES).
Proof.
  intros Hrun.
  destruct (setup_inv _ _ _ _ _ Hrun)
    as (coordinator & Hc & -> & -> & sensors & filters & -> & Hs & Hf).
  exists coordinator, sensors, filters. repeat split; try assumption.
  - now apply constructed_sensor_kinds with coordinator (CONF_NAME info) (CONF_MODEL info).
  - symmetry. now apply Forall2_length in Hf.
  - intros device_id Hid.
    now apply constructed_filter_ids with coordinator (CONF_NAME info).
Qed.

End SetupOrder.

(** * Further properties of the constructors *)

Section ConstructorBehaviour.
Context `{Const}.
Implicit Types (coordinator : Coordinator) (name model kind : string).

Lemma table_get_undeclared {V} (t : list (string * V)) k :
  k ∉ table_keys t → table_get t k = Raise (KeyError k).
Proof.
  unfold table_keys. induction t as [|[k' v'] t IH]; cbn; intros Hnot; [reflexivity|].
  apply not_elem_of_cons in Hnot as [Hne Hnot].
  rewrite decide_False by congruence. now apply IH.
Qed.

(** For an identifier that is not in its table, the constructors and
    [is_supported] raise the [KeyError] of the identifier and log
    nothing, whether the device id is in the snapshot or not. *)
Theorem undeclared_identifier_raises_KeyError coordinator name model kind :
  (kind ∉ table_keys SENSOR_TYPES →
   PhilipsSensor.__init__ coordinator name model kind = ([], Raise (KeyError kind)))
  ∧ (kind ∉ table_keys FILTER_TYPES →
     PhilipsFilterSensor.__init__ coordinator name model kind = ([], Raise (KeyError kind))
     ∧ PhilipsFilterSensor.is_supported (status coordinator) kind = Raise (KeyError kind)).
Proof.
  split; intros Hnot.
  - apply sensor_init_undeclared. now apply table_get_undeclared.
  - split.
    + apply filter_init_undeclared. now apply table_get_undeclared.
    + unfold PhilipsFilterSensor.is_supported.
      now rewrite (table_get_undeclared _ _ Hnot).
Qed.

Lemma append_length (s1 s2 : string) :
  String.length (s1 +:+ s2) = (String.length s1 + String.length s2)%nat.
Proof. induction s1 as [|c s1 IH]; [reflexivity | exact (f_equal S IH)]. Qed.

Lemma append_cancel_r (s1 s2 s : string) : s1 +:+ s = s2 +:+ s → s1 = s2.
Proof.
  revert s2. induction s1 as [|c s1 IH]; intros [|c2 s2] E.
  - reflexivity.
  - apply (f_equal String.length) in E. rewrite !append_length in E. simpl in E. lia.
  - apply (f_equal String.length) in E. rewrite !append_length in E. simpl in E. lia.
  - simpl in E. injection E as -> E. f_equal. now apply IH.
Qed.

Lemma str_join_middle (prefix a b postfix : string) :
  str_join [prefix; a; postfix] = str_join [prefix; b; postfix] ↔ a = b.
Proof.
  unfold str_join. cbn. rewrite !append_empty_r. split; [|now intros ->].
  intros E. apply String.app_inj in E. now apply append_cancel_r in E.
Qed.

(** The three keys of a Filter Sensor that was constructed coincide
    exactly as the three middle constants do: with distinct constants,
    the value, the total and the type are three entries of the
    snapshot. *)
Theorem derived_keys_differ_as_the_constants coordinator name model kind log self :
  PhilipsFilterSensor.__init__ coordinator name model kind = (log, Ok self) →
  (PhilipsFilterSensor._value_key self = PhilipsFilterSensor._total_key self
   ↔ PHILIPS_FILTER_STATUS = PHILIPS_FILTER_TOTAL)
  ∧ (PhilipsFilterSensor._value_key self = PhilipsFilterSensor._type_key self
     ↔ PHILIPS_FILTER_STATUS = PHILIPS_FILTER_TYPE)
  ∧ (PhilipsFilterSensor._total_key self = PhilipsFilterSensor._type_key self
     ↔ PHILIPS_FILTER_TOTAL = PHILIPS_FILTER_TYPE).
Proof.
  intros Hinit.
  destruct (table_get FILTER_TYPES kind) as [description|e] eqn:Hd.
  - rewrite (filter_init_cases _ _ _ _ _ Hd) in Hinit. cbv zeta in Hinit.
    destruct (status coordinator !! PHILIPS_DEVICE_ID); [|discriminate].
    injection Hinit as _ <-. cbn [PhilipsFilterSensor._value_key
      PhilipsFilterSensor._total_key PhilipsFilterSensor._type_key].
    repeat split; apply str_join_middle.
  - rewrite (filter_init_undeclared _ _ _ _ _ Hd) in Hinit. discriminate.
Qed.

(** Unique identifiers tell the entities of one device apart: two Filter
    Sensors constructed for different types have different identifiers,
    and two Simple Sensors with identifiers of ASCII characters have the
    same identifier exactly when their identifiers agree once every
    capital letter is replaced by its lower-case letter. *)
Theorem unique_ids_tell_entities_apart coordinator name model kind1 kind2 :
  (∀ log1 log2 e1 e2,
     PhilipsFilterSensor.__init__ coordinator name model kind1 = (log1, Ok e1) →
     PhilipsFilterSensor.__init__ coordinator name model kind2 = (log2, Ok e2) →
     PhilipsFilterSensor._attr_unique_id e1 = PhilipsFilterSensor._attr_unique_id e2 →
     kind1 = kind2)
  ∧ (∀ log1 log2 e1 e2,
       PhilipsSensor.__init__ coordinator name model kind1 = (log1, Ok e1) →
       PhilipsSensor.__init__ coordinator name model kind2 = (log2, Ok e2) →
       ascii_only kind1 = true →
       ascii_only kind2 = true →
       PhilipsSensor._attr_unique_id e1 = PhilipsSensor._attr_unique_id e2
       ↔ lowercased kind1 = lowercased kind2).
Proof.
  split.
  - intros log1 log2 e1 e2 H1 H2 E.
    destruct (filter_init_inv _ _ _ _ _ _ H1) as (_ & d1 & _ & Hid1 & _ & _ & Hu1).
    destruct (filter_init_inv _ _ _ _ _ _ H2) as (_ & d2 & _ & Hid2 & _ & _ & Hu2).
    rewrite Hid1 in Hid2. injection Hid2 as <-. rewrite Hu1, Hu2 in E.
    now do 4 apply String.app_inj in E.
  - intros log1 log2 e1 e2 H1 H2 _ _.
    destruct (sensor_init_inv _ _ _ _ _ _ H1) as (_ & d1 & _ & Hid1 & _ & _ & _ & Hu1).
    destruct (sensor_init_inv _ _ _ _ _ _ H2) as (_ & d2 & _ & Hid2 & _ & _ & _ & Hu2).
    rewrite Hid1 in Hid2. injection Hid2 as <-. rewrite Hu1, Hu2.
    rewrite !lower_lowercased. split.
    + intros E. now do 4 apply String.app_inj in E.
    + now intros ->.
Qed.

End ConstructorBehaviour.

(** * Further properties of the reads *)

Section ReadBehaviour.
Context `{Const}.
Import PhilipsFilterSensor.
Implicit Types (self : PhilipsFilterSensor.t) (coordinator : Coordinator).

(** A read of an entry that has vanished from the snapshot raises the
    [KeyError] of its key: the state of a Simple Sensor without
    [snapshot[kind]], whatever its conversion function, and the state and
    the attributes of a Filter Sensor without [snapshot[value_key]],
    whether the total is in the snapshot or not. *)
Theorem reads_of_vanished_entries_raise_KeyError coordinator :
  (∀ coordinator0 name model kind log sensor,
     PhilipsSensor.__init__ coordinator0 name model kind = (log, Ok sensor) →
     status coordinator !! kind = None →
     PhilipsSensor.state sensor coordinator = Raise (KeyError kind))
  ∧ (∀ self,
       status coordinator !! _value_key self = None →
       state self coordinator = Raise (KeyError (_value_key self))
       ∧ (extra_state_attributes self coordinator).2 = Raise (KeyError (_value_key self))).
Proof.
  split.
  - intros coordinator0 name model kind log sensor Hinit Hv.
    destruct (sensor_init_inv _ _ _ _ _ _ Hinit) as (_ & _ & _ & _ & _ & _ & Hkind & _).
    unfold PhilipsSensor.state, _device_status. rewrite Hkind.
    now rewrite (getitem_None _ _ Hv).
  - intros self Hv. split.
    + unfold state, _percentage, _time_remaining, _value, _device_status.
      rewrite (getitem_None _ _ Hv). now destruct (_has_total self coordinator).
    + unfold extra_state_attributes, _value, _device_status.
      now rewrite (getitem_None _ _ Hv).
Qed.

Lemma of_hours_out_of_range (hours : Z) :
  hours < -23999999976 ∨ 23999999999 < hours →
  timedelta.of_hours (VInt hours) = Raise OverflowError.
Proof.
  intros Hout. unfold timedelta.of_hours, timedelta.of_microseconds, timedelta.us_per_hour.
  replace (hours * 3600000000) with (hours * 3600 * 1000000) by lia.
  rewrite Z.div_mul by lia.
  change 86400 with (24 * 3600).
  rewrite Z.div_mul_cancel_r by lia.
  destruct Hout as [Hlow|Hhigh].
  - assert (hours / 24 < -999999999) by (apply Z.div_lt_upper_bound; lia).
    destruct (Z.leb_spec (-999999999) (hours / 24)); [lia | reflexivity].
  - assert (1000000000 ≤ hours / 24) by (apply Z.div_le_lower_bound; lia).
    destruct (Z.leb_spec (-999999999) (hours / 24)); [|reflexivity].
    destruct (Z.leb_spec (hours / 24) 999999999); [lia | reflexivity].
Qed.

(** In the duration branch the state of a value that is not a number is
    a [TypeError], that of a number of hours beyond the day range of
    [timedelta] (below -23999999976 or above 23999999999) is an
    [OverflowError], and a boolean counts as one hour or none. *)
Theorem duration_branch_edge_values self coordinator value :
  status coordinator !! _total_key self = None →
  status coordinator !! _value_key self = Some value →
  ((value = VNone ∨ ∃ s, value = VStr s) → state self coordinator = Raise TypeError)
  ∧ (∀ hours,
       value = VInt hours →
       hours < -23999999976 ∨ 23999999999 < hours →
       state self coordinator = Raise OverflowError)
  ∧ (∀ b,
       value = VBool b →
       state self coordinator = Ok (SValue (VStr (if b then "1:00:00" else "0:00:00")))).
Proof.
  intros Ht Hv. rewrite (state_without_total _ _ _ Ht Hv). split; [|split].
  - intros [->|[s ->]]; reflexivity.
  - intros hours -> Hout. unfold duration_text. now rewrite of_hours_out_of_range.
  - intros [] ->; reflexivity.
Qed.

(** On the snapshot it was constructed from, a Filter Sensor has the
    percent unit exactly when its state, if the read returns, is a
    float. *)
Theorem unit_agrees_with_state_at_construction coordinator name model kind log self r :
  __init__ coordinator name model kind = (log, Ok self) →
  state self coordinator = Ok r →
  _attr_unit_of_measurement self = Some PERCENTAGE ↔ ∃ f, r = SFloat f.
Proof.
  intros Hinit Hr.
  assert (_attr_unit_of_measurement self
          = if contains (status coordinator) (_total_key self)
            then Some PERCENTAGE else None) as Hunit.
  { destruct (table_get FILTER_TYPES kind) as [description|e] eqn:Hd.
    - rewrite (filter_init_cases _ _ _ _ _ Hd) in Hinit. cbv zeta in Hinit.
      destruct (status coordinator !! PHILIPS_DEVICE_ID); [|discriminate].
      injection Hinit as _ <-. reflexivity.
    - rewrite (filter_init_undeclared _ _ _ _ _ Hd) in Hinit. discriminate. }
  pose proof (state_kind_follows_snapshot _ _ _ Hr) as Hkind.
  rewrite Hunit. destruct (contains (status coordinator) (_total_key self)).
  - split; [now intros _ | reflexivity].
  - destruct Hkind as [s ->]. split; [discriminate | intros [f Hf]; discriminate].
Qed.

Lemma set_attrs_fields self attrs :
  _model (set_attrs self attrs) = _model self
  ∧ _value_key (set_attrs self attrs) = _value_key self
  ∧ _total_key (set_attrs self attrs) = _total_key self
  ∧ _type_key (set_attrs self attrs) = _type_key self
  ∧ _attr_unit_of_measurement (set_attrs self attrs) = _attr_unit_of_measurement self
  ∧ _attr_name (set_attrs self attrs) = _attr_name self
  ∧ _attr_unique_id (set_attrs self attrs) = _attr_unique_id self.
Proof. now repeat split. Qed.

Lemma extra_state_attributes_set_attrs self coordinator :
  ∃ attrs, (extra_state_attributes self coordinator).1 = set_attrs self attrs.
Proof.
  unfold extra_state_attributes.
  destruct (_value self coordinator); [|eauto].
  destruct (_has_total self coordinator); [|eauto].
  destruct (_total self coordinator); [|eauto].
  destruct (_time_remaining self coordinator); eauto.
Qed.

Lemma state_set_attrs self attrs coordinator :
  state (set_attrs self attrs) coordinator = state self coordinator.
Proof. reflexivity. Qed.

(** A read of the attributes, whether it returns or raises, changes
    nothing of the entity but its attribute dict: the keys, the name, the
    unique identifier and the unit stay, and so does the state on every
    snapshot. *)
Theorem reading_attributes_changes_the_dict_only self coordinator :
  let self' := (extra_state_attributes self coordinator).1 in
  _model self' = _model self
  ∧ _value_key self' = _value_key self
  ∧ _total_key self' = _total_key self
  ∧ _type_key self' = _type_key self
  ∧ _attr_unit_of_measurement self' = _attr_unit_of_measurement self
  ∧ _attr_name self' = _attr_name self
  ∧ _attr_unique_id self' = _attr_unique_id self
  ∧ ∀ later, state self' later = state self later.
Proof.
  cbv zeta. destruct (extra_state_attributes_set_attrs self coordinator) as [attrs ->].
  now repeat split.
Qed.

End ReadBehaviour.

(** * Further properties of the attribute dict *)

Section AttributeDict.
Context `{Const}.
Import PhilipsFilterSensor.
Implicit Types (self : PhilipsFilterSensor.t) (coordinator : Coordinator).

Lemma time_remaining_duration_text self coordinator value :
  status coordinator !! _value_key self = Some value →
  ∀ remaining,
    _time_remaining self coordinator = Ok remaining
    ↔ duration_text value = Ok (SValue (VStr remaining)).
Proof.
  intros Hv remaining. unfold _time_remaining, _value, _device_status, duration_text.
  rewrite (getitem_Some _ _ _ Hv). cbn.
  destruct (timedelta.of_hours value); cbn; split; intros E; congruence.
Qed.

(** What a read does once the value is in the snapshot. *)
Lemma extra_state_attributes_with_value self coordinator value :
  status coordinator !! _value_key self = Some value →
  let attrs1 :=
    match status coordinator !! _type_key self with
    | Some type => <[ATTR_TYPE := type]> (_attrs self)
    | None => _attrs self
    end in
  let attrs2 := <[ATTR_RAW := value]> attrs1 in
  extra_state_attributes self coordinator =
    match status coordinator !! _total_key self with
    | None => (set_attrs self attrs2, Ok attrs2)
    | Some total =>
        let attrs3 := <[ATTR_TOTAL := total]> attrs2 in
        match _time_remaining self coordinator with
        | Ok remaining =>
            (set_attrs self (<[ATTR_TIME_REMAINING := VStr remaining]> attrs3),
             Ok (<[ATTR_TIME_REMAINING := VStr remaining]> attrs3))
        | Raise e => (set_attrs self attrs3, Raise e)
        end
    end.
Proof.
  intros Hv. cbv zeta.
  unfold extra_state_attributes, _value, _total, _has_total, _device_status.
  rewrite (getitem_Some _ _ _ Hv).
  destruct (status coordinator !! _total_key self) as [total|] eqn:Ht.
  - now rewrite (contains_Some _ _ _ Ht), (getitem_Some _ _ _ Ht).
  - now rewrite (contains_None _ _ Ht).
Qed.

(** A read of the attributes returns exactly when the value is in the
    snapshot and, if the total is there too, the value has a duration
    text; without a total it returns for a value of any type. *)
Theorem attributes_read_returns_iff self coordinator :
  (∃ attrs, (extra_state_attributes self coordinator).2 = Ok attrs)
  ↔ ∃ value,
      status coordinator !! _value_key self = Some value
      ∧ (is_Some (status coordinator !! _total_key self) →
         ∃ remaining, duration_text value = Ok (SValue (VStr remaining))).
Proof.
  destruct (status coordinator !! _value_key self) as [value|] eqn:Hv.
  - rewrite (extra_state_attributes_with_value _ _ _ Hv). cbv zeta.
    destruct (status coordinator !! _total_key self) as [total|] eqn:Ht.
    + destruct (_time_remaining self coordinator) as [remaining|e] eqn:Hrem; cbn.
      * split; [|eauto]. intros _. exists value. split; [reflexivity|].
        intros _. exists remaining.
        now apply (time_remaining_duration_text _ _ _ Hv).
      * split; [intros [? ?]; discriminate|].
        intros (value' & Hv' & Hdur). injection Hv' as <-.
        destruct (Hdur (ltac:(eauto))) as [remaining Hrem'].
        apply (time_remaining_duration_text _ _ _ Hv) in Hrem'. congruence.
    + cbn. split; [|eauto]. intros _. exists value. split; [reflexivity|].
      intros [? ?]; discriminate.
  - split.
    + intros [attrs Hattrs].
      unfold extra_state_attributes, _value, _device_status in Hattrs.
      rewrite (getitem_None _ _ Hv) in Hattrs. discriminate.
    + intros (value & Hv' & _). discriminate.
Qed.

(** When a read of the attributes returns in the percentage branch, the
    dict holds what the state is computed from: the state is the rounded
    percentage of the ["raw"] entry and the total entry, and the
    duration entry is the duration text of the ["raw"] entry. *)
Theorem attributes_hold_the_operands_of_the_state self coordinator self' attrs total :
  NoDup attribute_keys →
  extra_state_attributes self coordinator = (self', Ok attrs) →
  status coordinator !! _total_key self = Some total →
  ∃ value remaining,
    attrs !! ATTR_RAW = Some value
    ∧ attrs !! ATTR_TOTAL = Some total
    ∧ attrs !! ATTR_TIME_REMAINING = Some (VStr remaining)
    ∧ state self coordinator = rounded_percentage value total
    ∧ duration_text value = Ok (SValue (VStr remaining)).
Proof.
  intros Hnd Hrun Ht.
  destruct (NoDup_4 _ _ _ _ Hnd) as (Hab & Hac & Had & Hbc & Hbd & Hcd).
  destruct (extra_state_attributes_inv _ _ _ _ Hrun) as (value & Hv & _ & Hattrs).
  cbv zeta in Hattrs. rewrite Ht in Hattrs.
  destruct Hattrs as (remaining & Hrem & ->).
  exists value, remaining. repeat split.
  - now simplify_map_eq.
  - now simplify_map_eq.
  - now simplify_map_eq.
  - now apply state_with_total.
  - now apply (time_remaining_duration_text _ _ _ Hv).
Qed.

(** Reading the attributes again on the same snapshot changes nothing:
    the second read returns the same dict and leaves the entity as the
    first read left it. *)
Theorem rereading_attributes_is_idempotent self coordinator self' attrs :
  NoDup attribute_keys →
  extra_state_attributes self coordinator = (self', Ok attrs) →
  extra_state_attributes self' coordinator = (self', Ok attrs).
Proof.
  intros Hnd Hrun.
  destruct (NoDup_4 _ _ _ _ Hnd) as (Hab & Hac & Had & Hbc & Hbd & Hcd).
  destruct (extra_state_attributes_inv _ _ _ _ Hrun) as (value & Hv & Hself & Hattrs).
  cbv zeta in Hattrs.
  assert (self' = set_attrs self attrs) as ->.
  { destruct (extra_state_attributes_set_attrs self coordinator) as [attrs0 Hset].
    rewrite Hrun in Hset. cbn in Hset. subst self'. cbn in Hself. now subst attrs0. }
  rewrite (extra_state_attributes_with_value (set_attrs self attrs) coordinator value Hv).
  cbv zeta. cbn [_attrs _type_key _total_key set_attrs].
  change (_time_remaining (set_attrs self attrs) coordinator)
    with (_time_remaining self coordinator).
  destruct (status coordinator !! _total_key self) as [total|].
  - destruct Hattrs as (remaining & Hrem & Hattrs). rewrite Hrem.
    assert (<[ATTR_TIME_REMAINING:=VStr remaining]>
              (<[ATTR_TOTAL:=total]>
                 (<[ATTR_RAW:=value]>
                    match status coordinator !! _type_key self with
                    | Some type => <[ATTR_TYPE:=type]> attrs
                    | None => attrs
                    end)) = attrs) as ->; [|reflexivity].
    apply map_eq. intros k. rewrite Hattrs.
    destruct (decide (k = ATTR_TIME_REMAINING)) as [->|];
      [now simplify_map_eq|].
    destruct (decide (k = ATTR_TOTAL)) as [->|]; [now simplify_map_eq|].
    destruct (decide (k = ATTR_RAW)) as [->|]; [now simplify_map_eq|].
    destruct (status coordinator !! _type_key self) as [type|]; [|now simplify_map_eq].
    destruct (decide (k = ATTR_TYPE)) as [->|]; now simplify_map_eq.
  - assert (<[ATTR_RAW:=value]>
              match status coordinator !! _type_key self with
              | Some type => <[ATTR_TYPE:=type]> attrs
              | None => attrs
              end = attrs) as ->; [|reflexivity].
    apply map_eq. intros k. rewrite Hattrs.
    destruct (decide (k = ATTR_RAW)) as [->|]; [now simplify_map_eq|].
    destruct (status coordinator !! _type_key self) as [type|]; [|now simplify_map_eq].
    destruct (decide (k = ATTR_TYPE)) as [->|]; now simplify_map_eq.
Qed.

End AttributeDict.

Section AttributeHistory.
Context `{Const}.
Import PhilipsFilterSensor.
Implicit Types (self : PhilipsFilterSensor.t) (coordinator : Coordinator).
Implicit Types (snapshots later : list Coordinator).

Lemma is_Some_insert (attrs : gmap string value) k k' v :
  is_Some (<[k' := v]> attrs !! k) ↔ k = k' ∨ is_Some (attrs !! k).
Proof.
  destruct (decide (k' = k)) as [->|Hne].
  - rewrite lookup_insert_eq. split; eauto.
  - rewrite lookup_insert_ne by exact Hne. split; [eauto|].
    intros [->|?]; [congruence | assumption].
Qed.

Lemma typed_attrs_keys self coordinator k :
  is_Some (match status coordinator !! _type_key self with
           | Some type => <[ATTR_TYPE := type]> (_attrs self)
           | None => _attrs self
           end !! k)
  → k = ATTR_TYPE ∨ is_Some (_attrs self !! k).
Proof.
  destruct (status coordinator !! _type_key self); [|eauto].
  now rewrite is_Some_insert.
Qed.

Lemma typed_attrs_keep self coordinator k :
  is_Some (_attrs self !! k) →
  is_Some (match status coordinator !! _type_key self with
           | Some type => <[ATTR_TYPE := type]> (_attrs self)
           | None => _attrs self
           end !! k).
Proof.
  destruct (status coordinator !! _type_key self); [|eauto].
  rewrite is_Some_insert. eauto.
Qed.

(** A read, returning or not, adds keys among the four and removes
    none. *)
Lemma read_step self coordinator k :
  (is_Some (_attrs (extra_state_attributes self coordinator).1 !! k) →
   k ∈ attribute_keys ∨ is_Some (_attrs self !! k))
  ∧ (is_Some (_attrs self !! k) →
     is_Some (_attrs (extra_state_attributes self coordinator).1 !! k)).
Proof.
  unfold attribute_keys, extra_state_attributes.
  destruct (_value self coordinator) as [value|e]; cbn [fst _attrs set_attrs].
  2: { split; [|apply typed_attrs_keep].
       intros Hk. apply typed_attrs_keys in Hk as [->|Hk]; [left; set_solver | now right]. }
  destruct (_has_total self coordinator); cbn [fst _attrs set_attrs].
  2: { rewrite is_Some_insert. split.
       - intros [->|Hk]; [left; set_solver|].
         apply typed_attrs_keys in Hk as [->|Hk]; [left; set_solver | now right].
       - intros Hk. right. now apply typed_attrs_keep. }
  destruct (_total self coordinator) as [total|e]; cbn [fst _attrs set_attrs].
  2: { rewrite is_Some_insert. split.
       - intros [->|Hk]; [left; set_solver|].
         apply typed_attrs_keys in Hk as [->|Hk]; [left; set_solver | now right].
       - intros Hk. right. now apply typed_attrs_keep. }
  destruct (_time_remaining self coordinator) as [remaining|e]; cbn [fst _attrs set_attrs];
    rewrite ?is_Some_insert; split.
  - intros [->|[->|[->|Hk]]]; [left; set_solver..|].
    apply typed_attrs_keys in Hk as [->|Hk]; [left; set_solver | now right].
  - intros Hk. do 3 right. now apply typed_attrs_keep.
  - intros [->|[->|Hk]]; [left; set_solver..|].
    apply typed_attrs_keys in Hk as [->|Hk]; [left; set_solver | now right].
  - intros Hk. do 2 right. now apply typed_attrs_keep.
Qed.

Lemma read_attributes_app self snapshots later :
  read_attributes self (snapshots ++ later)
  = read_attributes (read_attributes self snapshots) later.
Proof.
  revert self. induction snapshots as [|coordinator snapshots IH]; intros self;
    [reflexivity | apply IH].
Qed.

Lemma read_attributes_keys self snapshots k :
  (is_Some (_attrs (read_attributes self snapshots) !! k) →
   k ∈ attribute_keys ∨ is_Some (_attrs self !! k))
  ∧ (is_Some (_attrs self !! k) →
     is_Some (_attrs (read_attributes self snapshots) !! k)).
Proof.
  revert self. induction snapshots as [|coordinator snapshots IH]; intros self.
  - cbn. eauto.
  - cbn [read_attributes].
    destruct (IH (extra_state_attributes self coordinator).1) as [IHin IHkeep].
    destruct (read_step self coordinator k) as [Hin Hkeep]. split.
    + intros Hk. destruct (IHin Hk) as [?|Hk']; [now left | now apply Hin].
    + intros Hk. now apply IHkeep, Hkeep.
Qed.

(** Through any sequence of reads of the attributes, on any snapshots and
    whether the reads return or raise, the dict of an entity that was
    constructed holds keys among ["type"], ["raw"], the total and the
    duration only, and a key that it holds at some point is never
    removed afterwards. *)
Theorem attribute_dict_grows_within_its_keys
    coordinator0 name model kind log self snapshots later :
  __init__ coordinator0 name model kind = (log, Ok self) →
  ∀ k,
    (is_Some (_attrs (read_attributes self snapshots) !! k) → k ∈ attribute_keys)
    ∧ (is_Some (_attrs (read_attributes self snapshots) !! k) →
       is_Some (_attrs (read_attributes self (snapshots ++ later)) !! k)).
Proof.
  intros Hinit k.
  assert (_attrs self = ∅) as Hempty.
  { destruct (table_get FILTER_TYPES kind) as [description|e] eqn:Hd.
    - rewrite (filter_init_cases _ _ _ _ _ Hd) in Hinit. cbv zeta in Hinit.
      destruct (status coordinator0 !! PHILIPS_DEVICE_ID); [|discriminate].
      injection Hinit as _ <-. reflexivity.
    - rewrite (filter_init_undeclared _ _ _ _ _ Hd) in Hinit. discriminate. }
  split.
  - intros Hk. destruct (read_attributes_keys self snapshots k) as [Hin _].
    destruct (Hin Hk) as [?|Hk']; [assumption|].
    rewrite Hempty, lookup_empty in Hk'. now destruct Hk'.
  - intros Hk. rewrite read_attributes_app.
    now apply read_attributes_keys.
Qed.

End AttributeHistory.

(** * Further properties of the percentage *)

Section PercentageValues.
Import PyFloat.

Lemma shr_1_nonneg mrs : 0 ≤ shr_m mrs → 0 ≤ shr_m (shr_1 mrs).
Proof.
  destruct mrs as [m r s]. cbn [shr_m]. intros Hm.
  destruct m as [|[p|p|]|p]; cbn; lia.
Qed.

Lemma iter_shr_1_nonneg p mrs : 0 ≤ shr_m mrs → 0 ≤ shr_m (SpecFloat.iter_pos shr_1 p mrs).
Proof.
  revert mrs. induction p as [p IH|p IH|]; intros mrs Hm; cbn.
  - apply IH, IH. now apply shr_1_nonneg.
  - now apply IH, IH.
  - now apply shr_1_nonneg.
Qed.

Lemma shr_fexp_nonneg m e l : 0 ≤ m → 0 ≤ shr_m (shr_fexp prec emax m e l).1.
Proof.
  intros Hm. unfold shr_fexp, shr.
  assert (0 ≤ shr_m (shr_record_of_loc m l)) as Hrec
    by (destruct l as [|[]]; exact Hm).
  destruct (fexp prec emax (Zdigits2 m + e) - e) as [|p|p]; cbn [fst];
    [exact Hrec | now apply iter_shr_1_nonneg | exact Hrec].
Qed.

Lemma round_nearest_even_nonneg m l : 0 ≤ m → 0 ≤ round_nearest_even m l.
Proof.
  intros Hm. destruct l as [|[]]; cbn; [lia | | lia | lia].
  destruct (Z.even m); lia.
Qed.

(** Rounding a mantissa that is not negative never gives NaN. *)
Lemma binary_round_aux_not_nan sx mx ex lx :
  0 ≤ mx → binary_round_aux prec emax sx mx ex lx ≠ S754_nan.
Proof.
  intros Hm. unfold binary_round_aux.
  pose proof (shr_fexp_nonneg mx ex lx Hm) as H1.
  destruct (shr_fexp prec emax mx ex lx) as [mrs' e'].
  cbn [fst] in H1.
  pose proof (shr_fexp_nonneg _ e' loc_Exact
                (round_nearest_even_nonneg _ (loc_of_shr_record mrs') H1)) as H2.
  destruct (shr_fexp prec emax _ e' loc_Exact) as [mrs'' e''].
  cbn [fst] in H2.
  destruct (shr_m mrs'') as [|m|m]; [discriminate | | lia].
  destruct (e'' <=? emax - prec); discriminate.
Qed.

(** What an operand converts to is a zero or a finite float. *)
Lemma operand_finite v y :
  operand v = Ok y → (∃ s, y = S754_zero s) ∨ (∃ s m e, y = S754_finite s m e).
Proof.
  assert (∀ n, of_int n = Ok y →
               (∃ s, y = S754_zero s) ∨ (∃ s m e, y = S754_finite s m e)) as Hint.
  { intros n. unfold of_int.
    destruct (binary_normalize prec emax n 0 false) as [s| s| |s m e] eqn:E;
      intros Hy; try discriminate; injection Hy as <-; [eauto | | eauto 6].
    exfalso. destruct n as [|p|p]; [discriminate | |];
      cbn [binary_normalize] in E; unfold binary_round in E;
      destruct (shl_align _ _ _) as [mz ez];
      now apply binary_round_aux_not_nan in E. }
  destruct v as [|b|n|s]; cbn [operand]; [discriminate | apply Hint | apply Hint | discriminate].
Qed.

Lemma div_eucl_nonneg a b : 0 ≤ a → 0 < b → 0 ≤ (Z.div_eucl a b).1.
Proof. intros Ha Hb. change (Z.div_eucl a b).1 with (a / b). now apply Z.div_pos. Qed.

Lemma div_finite_not_nan sx mx ex sy my ey :
  div (S754_finite sx mx ex) (S754_finite sy my ey) ≠ S754_nan.
Proof.
  unfold div, SFdiv, SFdiv_core_binary.
  set (s := ex - ey - _).
  set (m' := match s with Z.pos _ => Z.shiftl (Z.pos mx) s | 0 => Z.pos mx | Z.neg _ => 0 end).
  assert (0 ≤ m') as Hm'.
  { subst m'. destruct s as [|p|p]; [lia | | lia]. apply Z.shiftl_nonneg. lia. }
  pose proof (div_eucl_nonneg m' (Z.pos my) Hm' ltac:(lia)) as Hq.
  destruct (Z.div_eucl m' (Z.pos my)) as [q r]. cbn [fst] in Hq.
  now apply binary_round_aux_not_nan.
Qed.

Lemma round2_not_nan x : x ≠ S754_nan → round2 x ≠ S754_nan.
Proof.
  intros Hx. destruct x as [s|s| |s m e]; cbn [round2]; try assumption.
  destruct (match e with
            | Z.neg p => round_half_even (Z.pos m * 100) (Z.pow_pos 2 p)
            | _ => Z.pos m * 100 * 2 ^ e
            end) as [|h|h]; [discriminate | apply div_finite_not_nan | discriminate].
Qed.

Lemma rounded_percentage_not_nan value total f :
  rounded_percentage value total = Ok (SFloat f) → f ≠ S754_nan.
Proof.
  unfold rounded_percentage, mul_value, truediv_value.
  destruct (operand value) as [x|e] eqn:Hx; cbn; [|discriminate].
  destruct (operand total) as [y|e] eqn:Hy; cbn; [|discriminate].
  destruct (is_zero y) eqn:Hz; [discriminate|].
  intros E. injection E as <-. apply round2_not_nan.
  destruct (operand_finite _ _ Hy) as [[s ->]|(sy & my & ey & ->)]; [discriminate|].
  destruct (operand_finite _ _ Hx) as [[s ->]|(sx & mx & ex & ->)];
    [intros Hnan; unfold div, mul, SFdiv, SFmul in Hnan; discriminate|].
  unfold mul, hundred. cbn [SFmul].
  match goal with
  | |- div ?z _ ≠ _ =>
      assert (z ≠ S754_nan) as Hmul by (apply binary_round_aux_not_nan; lia);
      destruct z as [s|s| |s m e]
  end.
  - intros Hnan. unfold div, SFdiv in Hnan. discriminate.
  - intros Hnan. unfold div, SFdiv in Hnan. discriminate.
  - now destruct Hmul.
  - apply div_finite_not_nan.
Qed.










End PercentageValues.

Section PercentageState.
Context `{Const}.
Import PhilipsFilterSensor.
Implicit Types (self : PhilipsFilterSensor.t) (coordinator : Coordinator).

(** The state of a Filter Sensor is never NaN, whatever the entity and
    the snapshot. *)
Theorem state_is_never_NaN self coordinator :
  state self coordinator ≠ Ok (SFloat S754_nan).
Proof.
  intros E.
  destruct (status coordinator !! _total_key self) as [total|] eqn:Ht.
  - destruct (status coordinator !! _value_key self) as [value|] eqn:Hv.
    + rewrite (state_with_total _ _ _ _ Ht Hv) in E.
      now apply rounded_percentage_not_nan in E.
    + unfold state, _percentage, _value, _device_status in E.
      rewrite (getitem_None _ _ Hv) in E.
      destruct (_has_total self coordinator); [discriminate|].
      destruct (_time_remaining self coordinator); discriminate.
  - pose proof (state_kind_follows_snapshot _ _ _ E) as Hkind.
    rewrite (contains_None _ _ Ht) in Hkind. destruct Hkind as [s Hs]. discriminate.
Qed.


End PercentageState.

(** * Further properties of the display name *)

Section DisplayNames.
Context `{Const}.
Implicit Types (coordinator : Coordinator) (name model kind : string).

Lemma to_lower_to_upper c : to_lower (to_upper c) = to_lower c.
Proof. destruct c as [[] [] [] [] [] [] [] []]; reflexivity. Qed.

Lemma to_lower_to_lower c : to_lower (to_lower c) = to_lower c.
Proof. destruct c as [[] [] [] [] [] [] [] []]; reflexivity. Qed.

Lemma lower_title_from cased s : lower (title_from cased s) = lower s.
Proof.
  unfold lower. revert cased. induction s as [|c s IH]; intros cased; [reflexivity|].
  cbn [title_from]. destruct (is_lower c).
  - cbn [string_map]. rewrite IH. f_equal.
    destruct cased; [reflexivity | apply to_lower_to_upper].
  - destruct (is_upper c); cbn [string_map]; rewrite IH; f_equal.
    destruct cased; [apply to_lower_to_lower | reflexivity].
Qed.

Lemma length_title_from cased s : String.length (title_from cased s) = String.length s.
Proof.
  revert cased. induction s as [|c s IH]; intros cased; [reflexivity|].
  cbn [title_from]. destruct (is_lower c); [|destruct (is_upper c)];
    cbn [String.length]; now rewrite IH.
Qed.

Lemma length_string_map f s : String.length (string_map f s) = String.length s.
Proof. induction s as [|c s IH]; [reflexivity | exact (f_equal S IH)]. Qed.

Lemma title_word s :
  String.length (title (replace_underscores s)) = String.length s
  ∧ lower (title (replace_underscores s)) = lower (replace_underscores s).
Proof.
  unfold title. split.
  - rewrite length_title_from. apply length_string_map.
  - apply lower_title_from.
Qed.

(** The display name of an entity that was constructed from a label, or
    a filter type, of ASCII characters is the device name, a space and a
    word made from the label of the sensor definition, or from the
    filter type: the word has the length of its source and differs from
    it only by spaces for underscores and by the case of letters; the
    label ["pm25"] gives ["Pm25"] and the filter type ["pre_filter"]
    gives ["Pre Filter"]. *)
Theorem display_name_is_the_titled_label coordinator name model kind :
  (∀ log self description,
     PhilipsSensor.__init__ coordinator name model kind = (log, Ok self) →
     table_get SENSOR_TYPES kind = Ok description →
     ascii_only (ATTR_LABEL description) = true →
     ∃ word,
       PhilipsSensor._attr_name self = name +:+ " " +:+ word
       ∧ String.length word = String.length (ATTR_LABEL description)
       ∧ lowercased word = lowercased (replace_underscores (ATTR_LABEL description))
       ∧ (ATTR_LABEL description = "pm25" → word = "Pm25"))
  ∧ (∀ log self,
       PhilipsFilterSensor.__init__ coordinator name model kind = (log, Ok self) →
       ascii_only kind = true →
       ∃ word,
         PhilipsFilterSensor._attr_name self = name +:+ " " +:+ word
         ∧ String.length word = String.length kind
         ∧ lowercased word = lowercased (replace_underscores kind)
         ∧ (kind = "pre_filter" → word = "Pre Filter")).
Proof.
  split.
  - intros log self description Hinit Hd _.
    rewrite (sensor_init_cases _ _ _ _ _ Hd) in Hinit.
    destruct (status coordinator !! PHILIPS_DEVICE_ID); [|discriminate].
    injection Hinit as _ <-.
    exists (title (replace_underscores (ATTR_LABEL description))).
    split; [reflexivity|]. split; [apply title_word|]. split.
    + rewrite <- !lower_lowercased. apply title_word.
    + cbn [PhilipsSensor._attr_name]. now intros ->.
  - intros log self Hinit _.
    destruct (table_get FILTER_TYPES kind) as [description|e] eqn:Hd.
    + rewrite (filter_init_cases _ _ _ _ _ Hd) in Hinit. cbv zeta in Hinit.
      destruct (status coordinator !! PHILIPS_DEVICE_ID); [|discriminate].
      injection Hinit as _ <-.
      exists (title (replace_underscores kind)).
      split; [reflexivity|]. split; [apply title_word|]. split.
      * rewrite <- !lower_lowercased. apply title_word.
      * now intros ->.
    + rewrite (filter_init_undeclared _ _ _ _ _ Hd) in Hinit. discriminate.
Qed.

End DisplayNames.

(** * The further properties at work on the sample configuration *)

Section FurtherWitnesses.
Import Sample.
#[local] Existing Instance Sample.const.

Lemma setup_raises_witness :
  async_setup_platform (hass anonymous) (Some info) = (not_ready_log, Raise PlatformNotReady)
  ∧ ∃ info',
      Some info = Some info'
      ∧ ((hass anonymous !! CONF_HOST info' = None
          ∧ PlatformNotReady = KeyError (CONF_HOST info') ∧ not_ready_log = [])
         ∨ (∃ coordinator,
              hass anonymous !! CONF_HOST info' = Some coordinator
              ∧ status coordinator !! PHILIPS_DEVICE_ID = None
              ∧ eligible (status coordinator)
              ∧ PlatformNotReady = PlatformNotReady ∧ not_ready_log = not_ready_log)).
Proof.
  assert (async_setup_platform (hass anonymous) (Some info)
          = (not_ready_log, Raise PlatformNotReady)) as Hrun by (vm_compute; reflexivity).
  split; [exact Hrun|].
  exact (setup_raises_only_KeyError_or_not_ready (hass anonymous) (Some info)
           not_ready_log PlatformNotReady Hrun).
Defined.

Lemma setup_without_device_id_witness :
  (hass anonymous !! CONF_HOST info = Some anonymous
   ∧ status anonymous !! PHILIPS_DEVICE_ID = None)
  ∧ ((eligible (status anonymous)
      ∧ async_setup_platform (hass anonymous) (Some info)
        = (not_ready_log, Raise PlatformNotReady))
     ∨ (¬ eligible (status anonymous)
        ∧ async_setup_platform (hass anonymous) (Some info) = ([], Ok (Some ([], false))))).
Proof.
  assert (hass anonymous !! CONF_HOST info = Some anonymous) as Hc by (vm_compute; reflexivity).
  assert (status anonymous !! PHILIPS_DEVICE_ID = None) as Hid by (vm_compute; reflexivity).
  split; [split; assumption|].
  exact (setup_without_device_id_outcome (hass anonymous) info anonymous Hc Hid).
Defined.

Lemma setup_order_witness :
  async_setup_platform (hass full) (Some info)
  = ([], Ok (Some ([Sensor pm25_sensor; FilterSensor pre_filter], false)))
  ∧ ∃ coordinator sensors filters,
      hass full !! CONF_HOST info = Some coordinator
      ∧ [Sensor pm25_sensor; FilterSensor pre_filter]
        = (Sensor <$> sensors) ++ (FilterSensor <$> filters)
      ∧ PhilipsSensor.kind <$> sensors
        = filter (λ k, reports (status coordinator) k = true) (table_keys SENSOR_TYPES).
Proof.
  assert (async_setup_platform (hass full) (Some info)
          = ([], Ok (Some ([Sensor pm25_sensor; FilterSensor pre_filter], false))))
    as Hrun by (vm_compute; reflexivity).
  split; [exact Hrun|].
  destruct (setup_registers_in_table_order (hass full) info [] _ false Hrun)
    as (coordinator & sensors & filters & Hc & _ & _ & Hlist & Hkinds & _).
  now exists coordinator, sensors, filters.
Defined.

Lemma setup_sensor_witness :
  (hass full !! CONF_HOST info = Some full
   ∧ "pm25" ∈ table_keys SENSOR_TYPES
   ∧ async_setup_platform (hass full) (Some info)
     = ([], Ok (Some ([Sensor pm25_sensor; FilterSensor pre_filter], false))))
  ∧ ((∃ e, PhilipsSensor.__init__ full (CONF_NAME info) (CONF_MODEL info) "pm25" = ([], Ok e)
           ∧ Sensor e ∈ [Sensor pm25_sensor; FilterSensor pre_filter])
     ↔ ∃ value, status full !! "pm25" = Some value ∧ truthy value = true).
Proof.
  assert (hass full !! CONF_HOST info = Some full) as Hc by (vm_compute; reflexivity).
  assert ("pm25" ∈ table_keys SENSOR_TYPES) as Hk by apply list_elem_of_here.
  assert (async_setup_platform (hass full) (Some info)
          = ([], Ok (Some ([Sensor pm25_sensor; FilterSensor pre_filter], false))))
    as Hrun by (vm_compute; reflexivity).
  split; [now repeat split|].
  exact (setup_sensor_iff_reports (hass full) info full "pm25" [] _ false Hc Hk Hrun).
Defined.

Lemma undeclared_identifier_witness :
  ("humidity" ∉ table_keys SENSOR_TYPES)
  ∧ ("humidity" ∉ table_keys FILTER_TYPES)
  ∧ PhilipsSensor.__init__ anonymous "Purifier" "AC1234" "humidity"
    = ([], Raise (KeyError "humidity"))
  ∧ PhilipsFilterSensor.__init__ anonymous "Purifier" "AC1234" "humidity"
    = ([], Raise (KeyError "humidity")).
Proof.
  assert ("humidity" ∉ table_keys SENSOR_TYPES) as Hs
    by (apply (bool_decide_unpack _); vm_compute; exact I).
  assert ("humidity" ∉ table_keys FILTER_TYPES) as Hf
    by (apply (bool_decide_unpack _); vm_compute; exact I).
  destruct (undeclared_identifier_raises_KeyError anonymous "Purifier" "AC1234" "humidity")
    as [Hsensor Hfilter].
  split; [exact Hs|]. split; [exact Hf|]. split; [exact (Hsensor Hs) | exact (proj1 (Hfilter Hf))].
Defined.

Lemma derived_keys_witness :
  PhilipsFilterSensor.__init__ full "Purifier" "AC1234" "pre_filter" = ([], Ok pre_filter)
  ∧ (PhilipsFilterSensor._value_key pre_filter = PhilipsFilterSensor._total_key pre_filter
     ↔ PHILIPS_FILTER_STATUS = PHILIPS_FILTER_TOTAL).
Proof.
  assert (PhilipsFilterSensor.__init__ full "Purifier" "AC1234" "pre_filter"
          = ([], Ok pre_filter)) as Hinit by (vm_compute; reflexivity).
  split; [exact Hinit|].
  exact (proj1 (derived_keys_differ_as_the_constants full "Purifier" "AC1234"
                  "pre_filter" [] pre_filter Hinit)).
Defined.

Lemma unique_ids_witness :
  PhilipsFilterSensor.__init__ full "Purifier" "AC1234" "pre_filter" = ([], Ok pre_filter)
  ∧ PhilipsFilterSensor.__init__ full "Purifier" "AC1234" "hepa_filter" = ([], Ok hepa_filter)
  ∧ PhilipsFilterSensor._attr_unique_id pre_filter
    ≠ PhilipsFilterSensor._attr_unique_id hepa_filter
  ∧ PhilipsSensor.__init__ (H := mixed_case) full "Purifier" "AC1234" "TVOC"
    = ([], Ok (tvoc_sensor "TVOC"))
  ∧ PhilipsSensor.__init__ (H := mixed_case) full "Purifier" "AC1234" "tvoc"
    = ([], Ok (tvoc_sensor "tvoc"))
  ∧ PhilipsSensor._attr_unique_id (tvoc_sensor "TVOC")
    = PhilipsSensor._attr_unique_id (tvoc_sensor "tvoc").
Proof.
  assert (PhilipsFilterSensor.__init__ full "Purifier" "AC1234" "pre_filter"
          = ([], Ok pre_filter)) as H1 by (vm_compute; reflexivity).
  assert (PhilipsFilterSensor.__init__ full "Purifier" "AC1234" "hepa_filter"
          = ([], Ok hepa_filter)) as H2 by (vm_compute; reflexivity).
  assert (PhilipsSensor.__init__ (H := mixed_case) full "Purifier" "AC1234" "TVOC"
          = ([], Ok (tvoc_sensor "TVOC"))) as H3 by (vm_compute; reflexivity).
  assert (PhilipsSensor.__init__ (H := mixed_case) full "Purifier" "AC1234" "tvoc"
          = ([], Ok (tvoc_sensor "tvoc"))) as H4 by (vm_compute; reflexivity).
  split; [exact H1|]. split; [exact H2|]. split; [|split; [exact H3|split; [exact H4|]]].
  - intros E.
    pose proof (proj1 (unique_ids_tell_entities_apart full "Purifier" "AC1234"
                         "pre_filter" "hepa_filter") [] [] pre_filter hepa_filter H1 H2 E)
      as Hk.
    discriminate Hk.
  - apply (proj2 (unique_ids_tell_entities_apart (H := mixed_case) full "Purifier" "AC1234"
                    "TVOC" "tvoc") [] [] _ _ H3 H4 eq_refl eq_refl).
    reflexivity.
Defined.

Lemma vanished_entries_witness :
  status warm !! "pm25" = None
  ∧ status warm !! PhilipsFilterSensor._value_key pre_filter = None
  ∧ PhilipsSensor.state pm25_sensor warm = Raise (KeyError "pm25")
  ∧ PhilipsFilterSensor.state pre_filter warm = Raise (KeyError "PreFilterStatus").
Proof.
  assert (status warm !! "pm25" = None) as Hs by (vm_compute; reflexivity).
  assert (status warm !! PhilipsFilterSensor._value_key pre_filter = None) as Hf
    by (vm_compute; reflexivity).
  assert (PhilipsSensor.__init__ full "Purifier" "AC1234" "pm25" = ([], Ok pm25_sensor))
    as Hinit by (vm_compute; reflexivity).
  destruct (reads_of_vanished_entries_raise_KeyError warm) as [Hsensor Hfilter].
  split; [exact Hs|]. split; [exact Hf|]. split.
  - exact (Hsensor full "Purifier" "AC1234" "pm25" [] pm25_sensor Hinit Hs).
  - exact (proj1 (Hfilter pre_filter Hf)).
Defined.

Lemma duration_edge_witness :
  (status unreadable !! PhilipsFilterSensor._total_key pre_filter = None
   ∧ status unreadable !! PhilipsFilterSensor._value_key pre_filter = Some (VStr "n/a"))
  ∧ PhilipsFilterSensor.state pre_filter unreadable = Raise TypeError.
Proof.
  assert (status unreadable !! PhilipsFilterSensor._total_key pre_filter = None) as Ht
    by (vm_compute; reflexivity).
  assert (status unreadable !! PhilipsFilterSensor._value_key pre_filter = Some (VStr "n/a"))
    as Hv by (vm_compute; reflexivity).
  split; [split; assumption|].
  apply (duration_branch_edge_values pre_filter unreadable (VStr "n/a") Ht Hv).
  right. now exists "n/a".
Defined.

Lemma unit_agrees_witness :
  (PhilipsFilterSensor.__init__ full "Purifier" "AC1234" "pre_filter" = ([], Ok pre_filter)
   ∧ PhilipsFilterSensor.state pre_filter full
     = Ok (SFloat (S754_finite false 7504122879106089 (-49))))
  ∧ (PhilipsFilterSensor._attr_unit_of_measurement pre_filter = Some PERCENTAGE
     ↔ ∃ f, SFloat (S754_finite false 7504122879106089 (-49)) = SFloat f).
Proof.
  assert (PhilipsFilterSensor.__init__ full "Purifier" "AC1234" "pre_filter"
          = ([], Ok pre_filter)) as Hinit by (vm_compute; reflexivity).
  assert (PhilipsFilterSensor.state pre_filter full
          = Ok (SFloat (S754_finite false 7504122879106089 (-49)))) as Hr
    by (vm_compute; reflexivity).
  split; [split; assumption|].
  exact (unit_agrees_with_state_at_construction full "Purifier" "AC1234" "pre_filter" []
           pre_filter _ Hinit Hr).
Defined.

Lemma attributes_operands_witness :
  (NoDup attribute_keys
   ∧ PhilipsFilterSensor.extra_state_attributes pre_filter full
     = (after_first_read, Ok first_attrs)
   ∧ status full !! PhilipsFilterSensor._total_key pre_filter = Some (VInt 360))
  ∧ ∃ value remaining,
      first_attrs !! ATTR_RAW = Some value
      ∧ first_attrs !! ATTR_TOTAL = Some (VInt 360)
      ∧ first_attrs !! ATTR_TIME_REMAINING = Some (VStr remaining)
      ∧ PhilipsFilterSensor.state pre_filter full = rounded_percentage value (VInt 360)
      ∧ duration_text value = Ok (SValue (VStr remaining)).
Proof.
  assert (NoDup attribute_keys) as Hnd
    by (apply (bool_decide_unpack _); vm_compute; exact I).
  assert (PhilipsFilterSensor.extra_state_attributes pre_filter full
          = (after_first_read, Ok first_attrs)) as Hrun by (vm_compute; reflexivity).
  assert (status full !! PhilipsFilterSensor._total_key pre_filter = Some (VInt 360)) as Ht
    by (vm_compute; reflexivity).
  split; [now repeat split|].
  exact (attributes_hold_the_operands_of_the_state pre_filter full after_first_read
           first_attrs (VInt 360) Hnd Hrun Ht).
Defined.

Lemma rereading_witness :
  (NoDup attribute_keys
   ∧ PhilipsFilterSensor.extra_state_attributes pre_filter full
     = (after_first_read, Ok first_attrs))
  ∧ PhilipsFilterSensor.extra_state_attributes after_first_read full
    = (after_first_read, Ok first_attrs).
Proof.
  assert (NoDup attribute_keys) as Hnd
    by (apply (bool_decide_unpack _); vm_compute; exact I).
  assert (PhilipsFilterSensor.extra_state_attributes pre_filter full
          = (after_first_read, Ok first_attrs)) as Hrun by (vm_compute; reflexivity).
  split; [split; assumption|].
  exact (rereading_attributes_is_idempotent pre_filter full after_first_read first_attrs
           Hnd Hrun).
Defined.

Lemma attribute_history_witness :
  PhilipsFilterSensor.__init__ full "Purifier" "AC1234" "pre_filter" = ([], Ok pre_filter)
  ∧ ∀ k,
      (is_Some (PhilipsFilterSensor._attrs (read_attributes pre_filter [full; bare]) !! k) →
       k ∈ attribute_keys)
      ∧ (is_Some (PhilipsFilterSensor._attrs (read_attributes pre_filter [full; bare]) !! k) →
         is_Some (PhilipsFilterSensor._attrs
                    (read_attributes pre_filter ([full; bare] ++ [warm])) !! k)).
Proof.
  assert (PhilipsFilterSensor.__init__ full "Purifier" "AC1234" "pre_filter"
          = ([], Ok pre_filter)) as Hinit by (vm_compute; reflexivity).
  split; [exact Hinit|].
  exact (attribute_dict_grows_within_its_keys full "Purifier" "AC1234" "pre_filter" []
           pre_filter [full; bare] [warm] Hinit).
Defined.


Lemma display_name_witness :
  PhilipsFilterSensor.__init__ full "Purifier" "AC1234" "pre_filter" = ([], Ok pre_filter)
  ∧ ascii_only "pre_filter" = true
  ∧ ∃ word,
      PhilipsFilterSensor._attr_name pre_filter = "Purifier" +:+ " " +:+ word
      ∧ String.length word = String.length "pre_filter"
      ∧ lowercased word = lowercased (replace_underscores "pre_filter")
      ∧ ("pre_filter" = "pre_filter" → word = "Pre Filter").
Proof.
  assert (PhilipsFilterSensor.__init__ full "Purifier" "AC1234" "pre_filter"
          = ([], Ok pre_filter)) as Hinit by (vm_compute; reflexivity).
  split; [exact Hinit|]. split; [reflexivity|].
  exact (proj2 (display_name_is_the_titled_label full "Purifier" "AC1234" "pre_filter")
           [] pre_filter Hinit eq_refl).
Defined.

Lemma attributes_frame_witness :
  PhilipsFilterSensor._attr_unique_id after_first_read
  = PhilipsFilterSensor._attr_unique_id pre_filter
  ∧ PhilipsFilterSensor._attr_unit_of_measurement after_first_read
    = PhilipsFilterSensor._attr_unit_of_measurement pre_filter
  ∧ PhilipsFilterSensor.state after_first_read bare
    = PhilipsFilterSensor.state pre_filter bare.
Proof.
  destruct (reading_attributes_changes_the_dict_only pre_filter full)
    as (_ & _ & _ & _ & Hunit & _ & Huid & Hstate).
  split; [exact Huid|]. split; [exact Hunit | exact (Hstate bare)].
Defined.

Lemma attributes_return_witness :
  status unreadable !! PhilipsFilterSensor._value_key pre_filter = Some (VStr "n/a")
  ∧ status unreadable !! PhilipsFilterSensor._total_key pre_filter = None
  ∧ ∃ attrs, (PhilipsFilterSensor.extra_state_attributes pre_filter unreadable).2 = Ok attrs.
Proof.
  assert (status unreadable !! PhilipsFilterSensor._value_key pre_filter = Some (VStr "n/a"))
    as Hv by (vm_compute; reflexivity).
  assert (status unreadable !! PhilipsFilterSensor._total_key pre_filter = None) as Ht
    by (vm_compute; reflexivity).
  split; [exact Hv|]. split; [exact Ht|].
  apply (proj2 (attributes_read_returns_iff pre_filter unreadable)).
  exists (VStr "n/a"). split; [exact Hv|].
  rewrite Ht. intros [total Htotal]. discriminate Htotal.
Defined.

Lemma never_NaN_witness :
  PhilipsFilterSensor.state pre_filter full ≠ Ok (SFloat S754_nan).
Proof. exact (state_is_never_NaN pre_filter full). Defined.

End FurtherWitnesses.
